(** * skin_editor: PNG <-> hex-grid conversion, shallow embedding

    The development follows [src/skin_editor.py].  Python strings are
    modelled as [string] (sequences of code points below 256), Python
    integers as [Z], the file system as a finite map from paths to
    files, and the [print]/[raise]/[try] structure of the two
    conversion functions by a small state-and-exception monad. *)

From Stdlib Require Import ZArith NArith Ascii String List Lia Bool.
From stdpp Require Import base option list gmap strings.

Local Open Scope string_scope.
Local Open Scope Z_scope.

(** ** Python built-ins used by the program *)

Module Py.

(** [str.isspace] on one character: the code points below 256 for
    which CPython's [Py_UNICODE_ISSPACE] holds.  [str.strip] and
    [str.split] without arguments use this class. *)
Definition isspace (c : ascii) : bool :=
  let n := N_of_ascii c in
  ((9 <=? n) && (n <=? 13) || (28 <=? n) && (n <=? 32)
   || (n =? 133) || (n =? 160))%N.

(** The narrower class skipped by [int(s, 16)] around the digits. *)
Definition int_space (c : ascii) : bool :=
  let n := N_of_ascii c in
  ((9 <=? n) && (n <=? 13) || (n =? 32) || (n =? 133) || (n =? 160))%N.

Definition is_empty (s : string) : bool :=
  match s with EmptyString => true | String _ _ => false end.

(** The line end "\n". *)
Definition newline : string := String "010" EmptyString.

(** [len(s)] *)
Definition len (s : string) : Z := Z.of_nat (String.length s).

(** [s.startswith(p)] *)
Definition startswith (p s : string) : bool := String.prefix p s.

(** [s[i:j]] for [0 <= i <= j] (indices past the end are clamped). *)
Definition slice (i j : nat) (s : string) : string :=
  String.substring i (j - i) s.

Fixpoint lstrip (s : string) : string :=
  match s with
  | String c s' => if isspace c then lstrip s' else s
  | EmptyString => EmptyString
  end.

Fixpoint rstrip (s : string) : string :=
  match s with
  | String c s' =>
      let r := rstrip s' in
      if isspace c && is_empty r then EmptyString else String c r
  | EmptyString => EmptyString
  end.

(** [s.strip()] *)
Definition strip (s : string) : string := rstrip (lstrip s).

Definition starts_token (s : string) : bool :=
  match s with
  | String c _ => negb (isspace c)
  | EmptyString => false
  end.

(** [s.split()]: the maximal runs of non-whitespace characters. *)
Fixpoint split (s : string) : list string :=
  match s with
  | EmptyString => []
  | String c s' =>
      if isspace c then split s'
      else if starts_token s' then
        match split s' with
        | t :: ts => String c t :: ts
        | [] => [String c EmptyString]
        end
      else String c EmptyString :: split s'
  end.

(** [sep.join(l)] *)
Fixpoint join (sep : string) (l : list string) : string :=
  match l with
  | [] => EmptyString
  | [s] => s
  | s :: l' => s ++ sep ++ join sep l'
  end.

(** Text-mode reading translates the line ends "\r\n" and "\r" to
    "\n" (universal newlines). *)
Fixpoint universal_newlines (s : string) : string :=
  match s with
  | EmptyString => EmptyString
  | String c s' =>
      if Ascii.eqb c "013" then
        match s' with
        | String c' s'' =>
            if Ascii.eqb c' "010" then String "010" (universal_newlines s'')
            else String "010" (universal_newlines s')
        | EmptyString => String "010" EmptyString
        end
      else String c (universal_newlines s')
  end.

(** Cut after every "\n", keeping it; a last line without "\n" is
    kept too, and the empty text has no line. *)
Fixpoint lines_of (s : string) : list string :=
  match s with
  | EmptyString => []
  | String c s' =>
      if Ascii.eqb c "010" then String c EmptyString :: lines_of s'
      else
        match lines_of s' with
        | l :: ls => if is_empty s' then [String c EmptyString]
                     else String c l :: ls
        | [] => [String c EmptyString]
        end
  end.

(** [f.readlines()] on a file opened with mode "r". *)
Definition readlines (data : string) : list string :=
  lines_of (universal_newlines data).

(** Value of one base-16 digit, either case. *)
Definition hex_value (c : ascii) : option Z :=
  let n := N_of_ascii c in
  if ((48 <=? n) && (n <=? 57))%N then Some (Z.of_N n - 48)
  else if ((65 <=? n) && (n <=? 70))%N then Some (Z.of_N n - 55)
  else if ((97 <=? n) && (n <=? 102))%N then Some (Z.of_N n - 87)
  else None.

(** The digits of an integer literal: base-16 digits with single
    underscores between them.  Returns the value and what follows. *)
Fixpoint scan_digits (after_underscore : bool) (acc : Z) (s : string)
  : option (Z * string) :=
  match s with
  | String c s' =>
      match hex_value c with
      | Some d => scan_digits false (16 * acc + d) s'
      | None =>
          if Ascii.eqb c "_" then
            if after_underscore then None else scan_digits true acc s'
          else if after_underscore then None else Some (acc, s)
      end
  | EmptyString => if after_underscore then None else Some (acc, s)
  end.

Fixpoint drop_int_space (s : string) : string :=
  match s with
  | String c s' => if int_space c then drop_int_space s' else s
  | EmptyString => EmptyString
  end.

Definition take_sign (s : string) : bool * string :=
  match s with
  | String c s' =>
      if Ascii.eqb c "-" then (true, s')
      else if Ascii.eqb c "+" then (false, s')
      else (false, s)
  | EmptyString => (false, s)
  end.

Definition take_prefix16 (s : string) : string :=
  match s with
  | String c0 (String c1 s') =>
      if Ascii.eqb c0 "0" && (Ascii.eqb c1 "x" || Ascii.eqb c1 "X") then
        match s' with
        | String c2 s'' => if Ascii.eqb c2 "_" then s'' else s'
        | EmptyString => s'
        end
      else s
  | _ => s
  end.

(** [int(s, 16)]; [None] stands for the [ValueError] it raises.
    Surrounding whitespace, one sign, the prefix "0x" and single
    underscores between digits are accepted, as in CPython. *)
Definition int16 (s : string) : option Z :=
  let '(neg, s1) := take_sign (drop_int_space s) in
  let s2 := take_prefix16 s1 in
  match s2 with
  | String c _ =>
      match hex_value c with
      | Some _ =>
          match scan_digits false 0 s2 with
          | Some (v, rest) =>
              if is_empty (drop_int_space rest)
              then Some (if neg then - v else v)
              else None
          | None => None
          end
      | None => None
      end
  | EmptyString => None
  end.

Definition hex_digit_upper (d : Z) : ascii :=
  if d <? 10 then ascii_of_N (Z.to_N (d + 48))
  else ascii_of_N (Z.to_N (d + 55)).

(** Upper-case base-16 digits of [n >= 0], most significant first. *)
Fixpoint hex_upper_aux (fuel : nat) (n : Z) (acc : string) : string :=
  match fuel with
  | O => acc
  | S k =>
      let acc' := String (hex_digit_upper (n mod 16)) acc in
      if n <? 16 then acc' else hex_upper_aux k (n / 16) acc'
  end.

Definition hex_upper (n : Z) : string :=
  hex_upper_aux (S (Z.to_nat (Z.log2 n))) n EmptyString.

Fixpoint zeros (k : nat) : string :=
  match k with
  | O => EmptyString
  | S k' => String "0" (zeros k')
  end.

(** The format spec [02X] of an f-string: upper-case base 16, a
    minus sign for negative numbers, zeros after the sign up to a
    total width of 2. *)
Definition format_02X (n : Z) : string :=
  let sign := if n <? 0 then "-" else "" in
  let digits := hex_upper (Z.abs n) in
  sign ++ zeros (2 - String.length sign - String.length digits) ++ digits.

(** A two-element Python sequence of integers is either a tuple or a
    list; [==] between a tuple and a list is [False]. *)
Inductive pyseq :=
| PyTuple (items : list Z)
| PyList (items : list Z).

Definition items_eqb (a b : list Z) : bool :=
  bool_decide (a = b).

Definition py_eq (a b : pyseq) : bool :=
  match a, b with
  | PyTuple x, PyTuple y => items_eqb x y
  | PyList x, PyList y => items_eqb x y
  | _, _ => false
  end.

(** [x in l] for a list [l] *)
Definition py_in (x : pyseq) (l : list pyseq) : bool :=
  existsb (fun e => py_eq e x) l.

End Py.

(** ** Data of the program *)

(** A pixel as the program handles it: the tuple [(r, g, b, a)]. *)
Definition rgba : Type := Z * Z * Z * Z.

(** The messages of the [ValueError]s the program raises. *)
Inductive value_error :=
| InvalidHexFormat (hex_code : string)
    (* "Invalid hex code format: {hex_code}. Expected #RRGGBBAA" *)
| InvalidHexChars (hex_code : string)
    (* "Invalid characters in hex code: {hex_code}" *)
| ImageWrongDimension (width height : Z)
    (* "Image has wrong dimension. ... Yours is {width}x{height}." *)
| InconsistentRowLength (row expected got : Z)
    (* "Inconsistent row length found at row {row}. Expected
        {expected}, got {got}." *)
| HexWrongDimension (width height : Z)
    (* "HEX data has wrong dimension. ... Yours is {width}x{height}." *)
| NegativeImageSize.
    (* raised by Image.new for a negative width or height *)

Inductive exn :=
| ValueError (msg : value_error)
| UnicodeDecodeError        (* a subclass of ValueError *)
| IndexError
| FileNotFoundError
| UnidentifiedImageError.

Definition is_ValueError (e : exn) : bool :=
  match e with
  | ValueError _ | UnicodeDecodeError => true
  | _ => false
  end.

(** What the program prints, one constructor per [print] call. *)
Inductive line :=
| InputPngNotFound (path : string)
    (* "Error: Input PNG file not found: {path}" *)
| ImageLoaded (path : string) (width height : Z)
    (* "Image loaded: {path} ({width}x{height})" *)
| HexGridWritten (path : string)
    (* "Hex grid successfully written to: {path}" *)
| CouldNotFindInput (path : string)
    (* "Error: Could not find the input file: {path}" *)
| PngToTextError (e : exn)
    (* "An error occurred during PNG to Text conversion: {e}" *)
| InputTxtNotFound (path : string)
    (* "Error: Input text file not found: {path}" *)
| InputTxtEmpty
    (* "Error: Input text file is empty." *)
| TextGridLoaded (path : string) (width height : Z)
    (* "Text grid loaded: {path} (Detected size: {width}x{height})" *)
| IndexOutOfBounds (x y : Z)
    (* "Error: Index out of bounds at ({x},{y}). Check grid consistency." *)
| HexParseError (row column : Z) (ve : exn)
    (* "Error parsing hex code at row {row}, column {column}: {ve}.
        Using transparent black." *)
| PngCreated (path : string)
    (* "PNG image successfully created at: {path}" *)
| TextGridError (ve : exn)
    (* "An error occurred processing the text grid: {ve}" *)
| TextToPngError (e : exn).
    (* "An error occurred during Text to PNG conversion: {e}" *)

(** An image: its mode, its size [(width, height)] and its pixels.  In
    mode [ModeRGB] there is no alpha channel and the fourth component
    of a pixel carries no information. *)
Inductive image_mode := ModeRGB | ModeRGBA.

Record image := Image {
  mode : image_mode;
  size : Z * Z;
  pixels : nat -> nat -> rgba
}.

(** [img.convert("RGBA")]: an image without alpha channel becomes
    fully opaque (an image file carrying a transparent colour key is
    not among the images modelled). *)
Definition convert_RGBA (img : image) : image :=
  match mode img with
  | ModeRGBA => img
  | ModeRGB =>
      Image ModeRGBA (size img)
        (fun x y => let '(r, g, b, _) := pixels img x y in (r, g, b, 255))
  end.

(** [pixels[x, y] = v]: the buffer keeps the tuple it is given.  (An
    8-bit buffer clamps a channel outside 0..255; the program itself
    has no such step, and on channels within 0..255 there is nothing
    to clamp.) *)
Definition putpixel (px : nat -> nat -> rgba) (x y : nat) (v : rgba)
  : nat -> nat -> rgba :=
  fun x' y' => if (x' =? x)%nat && (y' =? y)%nat then v else px x' y'.

(** A file holds text or an image.  Text is kept as the characters
    that reading in mode "r" decodes, before the translation of line
    ends; writing a file is taken to succeed. *)
Inductive file :=
| TextFile (data : string)
| ImageFile (img : image).

(** The world a conversion runs in: the files by path, and what has
    been printed so far. *)
Record world := World {
  files : gmap string file;
  stdout : list line
}.

(** ** Effects: state, exceptions, printing *)

Definition M (A : Type) : Type := world -> world * (exn + A).

#[global] Instance M_ret : MRet M := fun A a w => (w, inr a).

#[global] Instance M_bind : MBind M := fun A B k m w =>
  match m w with
  | (w', inr a) => k a w'
  | (w', inl e) => (w', inl e)
  end.

Definition raise {A} (e : exn) : M A := fun w => (w, inl e).

(** [try: body except ...: handler] *)
Definition try_except {A} (body : M A) (handler : exn -> M A) : M A :=
  fun w =>
    match body w with
    | (w', inl e) => handler e w'
    | r => r
    end.

Definition lift {A} (r : exn + A) : M A := fun w => (w, r).

Definition print (l : line) : M unit :=
  fun w => (World (files w) (stdout w ++ [l]), inr tt).

(** [os.path.exists(path)] *)
Definition os_path_exists (path : string) : M bool :=
  fun w => (w, inr (bool_decide (is_Some (files w !! path)))).

(** [Image.open(path)]: a file that is not an image is refused. *)
Definition Image_open (path : string) : M image :=
  fun w =>
    match files w !! path with
    | Some (ImageFile img) => (w, inr img)
    | Some (TextFile _) => (w, inl UnidentifiedImageError)
    | None => (w, inl FileNotFoundError)
    end.

(** [open(path, "r")] followed by [f.readlines()]: the bytes of an
    image are not text. *)
Definition open_readlines (path : string) : M (list string) :=
  fun w =>
    match files w !! path with
    | Some (TextFile data) => (w, inr (Py.readlines data))
    | Some (ImageFile _) => (w, inl UnicodeDecodeError)
    | None => (w, inl FileNotFoundError)
    end.

(** [open(path, "w")]: the file is created, or emptied.  Only runs in
    which the path can be opened are modelled; statements about what
    is written assume that the run reported success. *)
Definition open_w (path : string) : M unit :=
  fun w => (World (<[path := TextFile ""]> (files w)) (stdout w), inr tt).

Definition append_text (s : string) (f : file) : file :=
  match f with
  | TextFile data => TextFile (data ++ s)
  | ImageFile _ => TextFile s
  end.

(** [f.write(s)] on the file opened at [path]; the write is taken to
    go through. *)
Definition f_write (path s : string) : M unit :=
  fun w => (World (alter (append_text s) path (files w)) (stdout w), inr tt).

(** [Image.new("RGBA", (width, height))]: all pixels transparent
    black. *)
Definition Image_new (width height : Z) : M image :=
  if (width <? 0) || (height <? 0) then raise (ValueError NegativeImageSize)
  else mret (Image ModeRGBA (width, height) (fun _ _ => (0, 0, 0, 0))).

(** [img.save(path, "PNG")] *)
Definition save (img : image) (path : string) : M unit :=
  fun w => (World (<[path := ImageFile img]> (files w)) (stdout w), inr tt).

(** [range(n)] *)
Definition range (n : Z) : list nat := seq 0 (Z.to_nat n).

(** [enumerate(l)] *)
Fixpoint enumerate_from {A} (i : nat) (l : list A) : list (nat * A) :=
  match l with
  | [] => []
  | x :: l' => (i, x) :: enumerate_from (S i) l'
  end.

Definition enumerate {A} (l : list A) : list (nat * A) := enumerate_from 0 l.

(** [for x in l: body], without and with a loop-carried value. *)
Fixpoint for_each {A} (l : list A) (body : A -> M unit) : M unit :=
  match l with
  | [] => mret tt
  | x :: l' => body x ;; for_each l' body
  end.

Fixpoint for_fold {A S} (l : list A) (s : S) (body : A -> S -> M S) : M S :=
  match l with
  | [] => mret s
  | x :: l' => s' ← body x s; for_fold l' s' body
  end.

(** ** The program *)

(** Line 7. *)
Definition valid_sizes : list Py.pyseq :=
  [Py.PyTuple [64; 32]; Py.PyTuple [64; 64]; Py.PyTuple [128; 128]].

(** Lines 10-13. *)
Definition rgba_to_hex (px : rgba) : string :=
  let '(r, g, b, a) := px in
  "#" ++ Py.format_02X r ++ Py.format_02X g ++ Py.format_02X b
      ++ Py.format_02X a.

(** Lines 16-27. *)
Definition hex_to_rgba (hex_code : string) : exn + rgba :=
  if negb (Py.startswith "#" hex_code) || negb (Py.len hex_code =? 9) then
    inl (ValueError (InvalidHexFormat hex_code))
  else
    match
      r ← Py.int16 (Py.slice 1 3 hex_code);
      g ← Py.int16 (Py.slice 3 5 hex_code);
      b ← Py.int16 (Py.slice 5 7 hex_code);
      a ← Py.int16 (Py.slice 7 9 hex_code);
      Some (r, g, b, a)
    with
    | Some px => inr px
    | None => inl (ValueError (InvalidHexChars hex_code))
    end.

(** Lines 56-60: the codes of row [y]. *)
Definition export_row (px : nat -> nat -> rgba) (width : Z) (y : nat)
  : list string :=
  fold_left
    (fun row_hex_codes x => (row_hex_codes ++ [rgba_to_hex (px x y)])%list)
    (range width) [].

(** Lines 30-69. *)
Definition png_to_hex_grid (input_png_path output_txt_path : string)
  : M unit :=
  found ← os_path_exists input_png_path;
  if negb found then print (InputPngNotFound input_png_path)
  else
    try_except
      (img ← Image_open input_png_path;
       let img := convert_RGBA img in
       let '(width, height) := size img in
       if negb (Py.py_in (Py.PyTuple [width; height]) valid_sizes) then
         raise (ValueError (ImageWrongDimension width height))
       else
         print (ImageLoaded input_png_path width height) ;;
         open_w output_txt_path ;;
         for_each (range height) (fun y =>
           f_write output_txt_path
             (Py.join " " (export_row (pixels img) width y) ++ Py.newline)) ;;
         print (HexGridWritten output_txt_path))
      (fun e =>
         match e with
         | FileNotFoundError => print (CouldNotFindInput input_png_path)
         | _ => print (PngToTextError e)
         end).

(** Lines 90-104: the rows of the grid and the expected width. *)
Fixpoint parse_lines (lines : list (nat * string))
    (grid_data : list (list string)) (expected_width : Z)
  : exn + (list (list string) * Z) :=
  match lines with
  | [] => inr (grid_data, expected_width)
  | (y, line) :: rest =>
      let line := Py.strip line in
      if Py.is_empty line then parse_lines rest grid_data expected_width
      else
        let row_hex_codes := Py.split line in
        let got := Z.of_nat (length row_hex_codes) in
        if expected_width =? -1 then
          parse_lines rest (grid_data ++ [row_hex_codes])%list got
        else if negb (got =? expected_width) then
          inl (ValueError
                 (InconsistentRowLength (Z.of_nat y + 1) expected_width got))
        else
          parse_lines rest (grid_data ++ [row_hex_codes])%list expected_width
  end.

(** Lines 123-138: one position of the image. *)
Definition import_pixel (grid_data : list (list string)) (y x : nat)
    (px : nat -> nat -> rgba) : M (nat -> nat -> rgba) :=
  try_except
    (match grid_data !! y ≫= (fun row => row !! x) with
     | None => raise IndexError
     | Some hex_code =>
         rgba ← lift (hex_to_rgba hex_code);
         mret (putpixel px x y rgba)
     end)
    (fun e =>
       match e with
       | IndexError =>
           print (IndexOutOfBounds (Z.of_nat x) (Z.of_nat y)) ;;
           mret (putpixel px x y (0, 0, 0, 0))
       | _ =>
           if is_ValueError e then
             print (HexParseError (Z.of_nat y + 1) (Z.of_nat x + 1) e) ;;
             mret (putpixel px x y (0, 0, 0, 0))
           else raise e
       end).

(** Lines 121-138. *)
Definition populate (grid_data : list (list string)) (width height : Z)
    (px : nat -> nat -> rgba) : M (nat -> nat -> rgba) :=
  for_fold (range height) px (fun y px =>
    for_fold (range width) px (fun x px => import_pixel grid_data y x px)).

(** Lines 72-148. *)
Definition hex_grid_to_png (input_txt_path output_png_path : string)
  : M unit :=
  found ← os_path_exists input_txt_path;
  if negb found then print (InputTxtNotFound input_txt_path)
  else
    try_except
      (lines ← open_readlines input_txt_path;
       if bool_decide (lines = []) then print InputTxtEmpty
       else
         '(grid_data, expected_width) ←
           lift (parse_lines (enumerate lines) [] (-1));
         let height := Z.of_nat (length grid_data) in
         let width := expected_width in
         if negb (Py.py_in (Py.PyList [width; height]) valid_sizes) then
           raise (ValueError (HexWrongDimension width height))
         else
           print (TextGridLoaded input_txt_path width height) ;;
           img ← Image_new width height;
           px ← populate grid_data width height (pixels img);
           save (Image (mode img) (size img) px) output_png_path ;;
           print (PngCreated output_png_path))
      (fun e =>
         match e with
         | FileNotFoundError => print (CouldNotFindInput input_txt_path)
         | _ =>
             if is_ValueError e then print (TextGridError e)
             else print (TextToPngError e)
         end).

(** Lines 151-178.  [argparse] admits only the two [choices] for the
    mode and requires both paths: with anything else [parse_args] ends
    the process before a conversion starts. *)
Inductive conversion_mode := png2txt | txt2png.

Definition main (m : conversion_mode) (input output : string) : M unit :=
  match m with
  | png2txt => png_to_hex_grid input output
  | txt2png => hex_grid_to_png input output
  end.

(** ** Notions the statements use *)

(** One of '0'..'9', 'A'..'F'. *)
Definition is_upper_hex (c : ascii) : bool :=
  let n := N_of_ascii c in
  ((48 <=? n) && (n <=? 57) || (65 <=? n) && (n <=? 70))%N.

(** One of '0'..'9', 'A'..'F', 'a'..'f'. *)
Definition is_hex (c : ascii) : bool :=
  let n := N_of_ascii c in
  ((48 <=? n) && (n <=? 57) || (65 <=? n) && (n <=? 70)
   || (97 <=? n) && (n <=? 102))%N.

Fixpoint all_chars (p : ascii -> bool) (s : string) : bool :=
  match s with
  | EmptyString => true
  | String c s' => p c && all_chars p s'
  end.

(** '#' followed by exactly 8 upper-case base-16 digits. *)
Definition well_formed_upper (code : string) : bool :=
  match code with
  | String c digits =>
      Ascii.eqb c "#" && (String.length digits =? 8)%nat
      && all_chars is_upper_hex digits
  | EmptyString => false
  end.

(** Every channel within 0..255. *)
Definition channels_in_range (px : rgba) : Prop :=
  let '(r, g, b, a) := px in
  0 <= r <= 255 /\ 0 <= g <= 255 /\ 0 <= b <= 255 /\ 0 <= a <= 255.

(** The three sizes the specification accepts. *)
Definition valid_dimension (width height : Z) : Prop :=
  (width, height) = (64, 32) \/ (width, height) = (64, 64)
  \/ (width, height) = (128, 128).

(** A line the importer skips, and the tokens of one it keeps. *)
Definition blank (line : string) : Prop := Py.strip line = "".
Definition tokens_of (line : string) : list string :=
  Py.split (Py.strip line).
Definition token_count (line : string) : Z :=
  Z.of_nat (length (tokens_of line)).

(** A world whose only file is the text [data] at [path]. *)
Definition text_world (path data : string) : world :=
  World {[ path := TextFile data ]} [].

(** Shape of a code: '#' and eight characters. *)
Definition code_of_chars (c1 c2 c3 c4 c5 c6 c7 c8 : ascii) : string :=
  String "#" (String c1 (String c2 (String c3 (String c4 (String c5
    (String c6 (String c7 (String c8 EmptyString)))))))).

Definition pair_of_chars (c1 c2 : ascii) : string :=
  String c1 (String c2 EmptyString).

(** What [int(s, 16)] makes of a two-character string: two digits, or
    one digit after a sign or next to whitespace. *)
Definition int16_pair_spec (c1 c2 : ascii) : option Z :=
  match Py.hex_value c1, Py.hex_value c2 with
  | Some d1, Some d2 => Some (16 * d1 + d2)
  | None, Some d2 =>
      if Ascii.eqb c1 "-" then Some (- d2)
      else if Ascii.eqb c1 "+" || Py.int_space c1 then Some d2
      else None
  | Some d1, None => if Py.int_space c2 then Some d1 else None
  | None, None => None
  end.

Definition all_ascii : list ascii := map ascii_of_nat (seq 0 256).

Definition int16_pair_check (c1 c2 : ascii) : bool :=
  bool_decide (Py.int16 (pair_of_chars c1 c2) = int16_pair_spec c1 c2).

(** The rows the importer keeps: the tokens of the non-blank lines. *)
Definition kept_rows (lines : list string) : list (list string) :=
  map tokens_of
    (List.filter (fun l => negb (Py.is_empty (Py.strip l))) lines).

(** Result of the row loop. *)
Definition parsed : Type := exn + (list (list string) * Z).

(** The row number of a row-length error moved one down when it lies
    after line [k]. *)
Definition shift_row_after (k : Z) (r : parsed) : parsed :=
  match r with
  | inl (ValueError (InconsistentRowLength row expected got)) =>
      inl (ValueError
             (InconsistentRowLength
                (if row <=? k then row else row + 1) expected got))
  | _ => r
  end.

(** What a run of the importer leaves: the world, with one more line
    printed. *)
Definition printed (w : world) (l : line) : world * (exn + unit) :=
  (World (files w) (stdout w ++ [l]), inr tt).

(** Sample inputs: a text line of [n] copies of one code, and a text
    of [h] such lines. *)
Definition line_of (n : nat) (code : string) : string :=
  Py.join " " (replicate n code) ++ Py.newline.

Definition grid_text (w h : nat) (code : string) : string :=
  String.concat "" (replicate h (line_of w code)).

(** The text the exporter writes for an image already in mode RGBA:
    what the successive [f.write] calls of line 62 add up to. *)
Definition export_line (img : image) (y : nat) : string :=
  Py.join " " (export_row (pixels img) (fst (size img)) y) ++ Py.newline.

Definition export_text (img : image) : string :=
  fold_left (fun data y => data ++ export_line img y)
    (range (snd (size img))) "".

(** Sample images: every pixel the same. *)
Definition plain_image (m : image_mode) (w h : Z) (px : rgba) : image :=
  Image m (w, h) (fun _ _ => px).

(** A world whose only file is the image [img] at [path]. *)
Definition image_world (path : string) (img : image) : world :=
  World {[ path := ImageFile img ]} [].

(** What the loop of lines 121-138 stores at a position and prints
    for it. *)
Definition cell (grid_data : list (list string)) (x y : nat)
  : option string :=
  grid_data !! y ≫= (fun row => row !! x).

Definition cell_pixel (grid_data : list (list string)) (x y : nat) : rgba :=
  match cell grid_data x y with
  | Some hex_code =>
      match hex_to_rgba hex_code with
      | inr px => px
      | inl _ => (0, 0, 0, 0)
      end
  | None => (0, 0, 0, 0)
  end.

Definition cell_warning (grid_data : list (list string)) (x y : nat)
  : list line :=
  match cell grid_data x y with
  | Some hex_code =>
      match hex_to_rgba hex_code with
      | inr _ => []
      | inl e => [HexParseError (Z.of_nat y + 1) (Z.of_nat x + 1) e]
      end
  | None => [IndexOutOfBounds (Z.of_nat x) (Z.of_nat y)]
  end.

Definition fill_row (grid_data : list (list string)) (xs : list nat)
    (y : nat) (px : nat -> nat -> rgba) : nat -> nat -> rgba :=
  fold_left (fun p x => putpixel p x y (cell_pixel grid_data x y)) xs px.

Definition fill (grid_data : list (list string)) (xs ys : list nat)
    (px : nat -> nat -> rgba) : nat -> nat -> rgba :=
  fold_left (fun p y => fill_row grid_data xs y p) ys px.

Definition warnings (grid_data : list (list string)) (xs ys : list nat)
  : list line :=
  flat_map (fun y => flat_map (fun x => cell_warning grid_data x y) xs) ys.

(** The text of a grid: the tokens of a row joined by single spaces,
    one newline-terminated line per row. *)
Definition render_line (row : list string) : string :=
  Py.join " " row ++ Py.newline.

Fixpoint render (grid : list (list string)) : string :=
  match grid with
  | [] => ""
  | row :: rows => render_line row ++ render rows
  end.

(** A token: not empty, no whitespace inside. *)
Definition no_space (c : ascii) : bool := negb (Py.isspace c).
Definition is_token (t : string) : Prop :=
  t <> "" /\ all_chars no_space t = true.

(** A grid of [w] tokens per row. *)
Definition rectangular (w : nat) (grid : list (list string)) : Prop :=
  Forall (fun row => length row = w /\ Forall is_token row) grid.

Definition not_cr (c : ascii) : bool := negb (Ascii.eqb c "013").
Definition not_lf (c : ascii) : bool := negb (Ascii.eqb c "010").

(** A 64x32 grid whose first token is malformed, and a well-formed
    one. *)
Definition malformed_grid : list (list string) :=
  ("#ZZZZZZZZ" :: replicate 63 "#000000FF")
    :: replicate 31 (replicate 64 "#000000FF").

Definition plain_grid (w h : nat) (code : string) : list (list string) :=
  replicate h (replicate w code).

(** The grid of codes of an image in mode RGBA. *)
Definition image_grid (img : image) : list (list string) :=
  map (fun y => map (fun x => rgba_to_hex (pixels img x y))
                  (range (fst (size img))))
    (range (snd (size img))).

(** A letter 'a'..'f' in upper case; any other character as it is. *)
Definition upper_hex_char (c : ascii) : ascii :=
  let n := N_of_ascii c in
  if ((97 <=? n) && (n <=? 102))%N then ascii_of_N (n - 32) else c.

Fixpoint map_chars (f : ascii -> ascii) (s : string) : string :=
  match s with
  | EmptyString => EmptyString
  | String c s' => String (f c) (map_chars f s')
  end.

(** '#' followed by exactly 8 base-16 digits of either case. *)
Definition well_formed_any_case (code : string) : bool :=
  match code with
  | String c digits =>
      Ascii.eqb c "#" && (String.length digits =? 8)%nat
      && all_chars is_hex digits
  | EmptyString => false
  end.

(** The channels on which the codec is lossless. *)
Definition codec_channel (n : Z) : Prop := -15 <= n <= 255.

Definition codec_pixel (px : rgba) : Prop :=
  let '(r, g, b, a) := px in
  codec_channel r /\ codec_channel g /\ codec_channel b /\ codec_channel a.

(** ** The colour codec *)

Ltac ascii_cases c := destruct c as [[] [] [] [] [] [] [] []].

Lemma hex_value_facts c d :
  Py.hex_value c = Some d ->
  0 <= d < 16 /\ Py.int_space c = false /\ Py.isspace c = false
  /\ Ascii.eqb c "-" = false /\ Ascii.eqb c "+" = false
  /\ Ascii.eqb c "x" = false /\ Ascii.eqb c "X" = false
  /\ Ascii.eqb c "_" = false /\ is_hex c = true.
Proof.
  ascii_cases c; vm_compute; intros H; try discriminate H;
    injection H as <-; repeat split; discriminate.
Qed.

Lemma hex_value_digit_upper d :
  0 <= d < 16 -> Py.hex_value (Py.hex_digit_upper d) = Some d.
Proof.
  intros Hd.
  assert (Hn : d = Z.of_nat (Z.to_nat d)) by lia.
  assert (Hlt : (Z.to_nat d < 16)%nat) by lia.
  rewrite Hn. generalize dependent (Z.to_nat d). intros n _ Hlt.
  do 16 (destruct n as [|n]; [reflexivity|]). lia.
Qed.

Lemma digit_upper_hex_value c d :
  is_upper_hex c = true -> Py.hex_value c = Some d ->
  Py.hex_digit_upper d = c.
Proof.
  ascii_cases c; vm_compute; intros H1 H2; try discriminate H1;
    injection H2 as <-; reflexivity.
Qed.

Lemma upper_hex_has_value c :
  is_upper_hex c = true -> exists d, Py.hex_value c = Some d.
Proof.
  ascii_cases c; vm_compute; intros H; try discriminate H; eauto.
Qed.

(** The format [02X] of a byte is its two base-16 digits. *)
Lemma format_02X_byte n :
  0 <= n <= 255 ->
  Py.format_02X n =
  String (Py.hex_digit_upper (n / 16))
    (String (Py.hex_digit_upper (n mod 16)) EmptyString).
Proof.
  intros Hn. unfold Py.format_02X, Py.hex_upper.
  replace (n <? 0) with false by lia.
  rewrite Z.abs_eq by lia.
  destruct (Z.ltb_spec n 16) as [Hs | Hl].
  - cbn [Py.hex_upper_aux]. replace (n <? 16) with true by lia.
    rewrite Z.div_small by lia. reflexivity.
  - assert (Hlog : 4 <= Z.log2 n)
      by (apply Z.log2_le_pow2; [lia | simpl; lia]).
    destruct (Z.to_nat (Z.log2 n)) as [|k] eqn:Hk; [lia|].
    cbn [Py.hex_upper_aux]. replace (n <? 16) with false by lia.
    assert (Hq : 0 <= n / 16 < 16)
      by (split; [apply Z.div_pos; lia | apply Z.div_lt_upper_bound; lia]).
    replace (n / 16 <? 16) with true by lia.
    rewrite (Z.mod_small (n / 16)) by lia. reflexivity.
Qed.

(** [int(s, 16)] on two base-16 digits. *)
Lemma int16_hex_pair c1 c2 d1 d2 :
  Py.hex_value c1 = Some d1 -> Py.hex_value c2 = Some d2 ->
  Py.int16 (String c1 (String c2 EmptyString)) = Some (16 * d1 + d2).
Proof.
  intros H1 H2.
  destruct (hex_value_facts _ _ H1) as (_ & Hs1 & _ & Hm1 & Hp1 & _).
  destruct (hex_value_facts _ _ H2) as (_ & _ & _ & _ & _ & Hx & HX & _).
  unfold Py.int16. cbn [Py.drop_int_space]. rewrite Hs1.
  cbn [Py.take_sign]. rewrite Hm1, Hp1.
  cbn [Py.take_prefix16]. rewrite Hx, HX, andb_false_r.
  rewrite H1. cbn [Py.scan_digits]. rewrite H1, H2. cbn. reflexivity.
Qed.

Lemma byte_digits n :
  0 <= n <= 255 -> 0 <= n / 16 < 16 /\ 0 <= n mod 16 < 16.
Proof.
  intros Hn. split.
  - split; [apply Z.div_pos; lia | apply Z.div_lt_upper_bound; lia].
  - apply Z.mod_pos_bound. lia.
Qed.

Lemma int16_format_02X n :
  0 <= n <= 255 -> Py.int16 (Py.format_02X n) = Some n.
Proof.
  intros Hn. rewrite format_02X_byte by exact Hn.
  destruct (byte_digits n Hn) as [Hq Hr].
  rewrite (int16_hex_pair _ _ (n / 16) (n mod 16))
    by (apply hex_value_digit_upper; assumption).
  f_equal. rewrite (Z.div_mod n 16) at 3 by lia. reflexivity.
Qed.

Lemma hex_to_rgba_code c1 c2 c3 c4 c5 c6 c7 c8 :
  hex_to_rgba (code_of_chars c1 c2 c3 c4 c5 c6 c7 c8) =
  match
    r ← Py.int16 (pair_of_chars c1 c2);
    g ← Py.int16 (pair_of_chars c3 c4);
    b ← Py.int16 (pair_of_chars c5 c6);
    a ← Py.int16 (pair_of_chars c7 c8);
    Some (r, g, b, a)
  with
  | Some px => inr px
  | None =>
      inl (ValueError (InvalidHexChars (code_of_chars c1 c2 c3 c4 c5 c6 c7 c8)))
  end.
Proof. reflexivity. Qed.

Lemma rgba_to_hex_bytes r g b a :
  channels_in_range (r, g, b, a) ->
  rgba_to_hex (r, g, b, a) =
  code_of_chars
    (Py.hex_digit_upper (r / 16)) (Py.hex_digit_upper (r mod 16))
    (Py.hex_digit_upper (g / 16)) (Py.hex_digit_upper (g mod 16))
    (Py.hex_digit_upper (b / 16)) (Py.hex_digit_upper (b mod 16))
    (Py.hex_digit_upper (a / 16)) (Py.hex_digit_upper (a mod 16)).
Proof.
  intros (Hr & Hg & Hb & Ha). unfold rgba_to_hex.
  rewrite (format_02X_byte r Hr), (format_02X_byte g Hg),
    (format_02X_byte b Hb), (format_02X_byte a Ha).
  reflexivity.
Qed.

(** C2. Decoding the code of a pixel gives the pixel back: for every
    pixel whose four channels lie in 0..255,
    [hex_to_rgba (rgba_to_hex px)] succeeds and returns [px]. *)
Theorem decode_encode_pixel (r g b a : Z) :
  channels_in_range (r, g, b, a) ->
  hex_to_rgba (rgba_to_hex (r, g, b, a)) = inr (r, g, b, a).
Proof.
  intros Hpx. rewrite (rgba_to_hex_bytes _ _ _ _ Hpx), hex_to_rgba_code.
  destruct Hpx as (Hr & Hg & Hb & Ha). unfold pair_of_chars.
  rewrite <- !format_02X_byte, !int16_format_02X by assumption.
  reflexivity.
Qed.

Lemma decode_encode_pixel_witness :
  hex_to_rgba (rgba_to_hex (18, 52, 171, 255)) = inr (18, 52, 171, 255).
Proof. apply decode_encode_pixel. cbv. intuition discriminate. Defined.

Lemma well_formed_upper_shape code :
  well_formed_upper code = true ->
  exists c1 c2 c3 c4 c5 c6 c7 c8,
    code = code_of_chars c1 c2 c3 c4 c5 c6 c7 c8
    /\ Forall (fun c => is_upper_hex c = true) [c1; c2; c3; c4; c5; c6; c7; c8].
Proof.
  destruct code as [|c digits]; [discriminate|].
  unfold well_formed_upper.
  rewrite !andb_true_iff, Ascii.eqb_eq, Nat.eqb_eq.
  intros [[-> Hlen] Hall].
  do 8 (destruct digits as [|? digits]; [discriminate Hlen|]).
  destruct digits; [|discriminate Hlen].
  cbn [all_chars] in Hall. rewrite !andb_true_iff in Hall.
  do 8 eexists. split; [reflexivity|].
  repeat constructor; tauto.
Qed.

Lemma upper_pair_round_trip c1 c2 :
  is_upper_hex c1 = true -> is_upper_hex c2 = true ->
  exists n, 0 <= n <= 255
    /\ Py.int16 (pair_of_chars c1 c2) = Some n
    /\ Py.hex_digit_upper (n / 16) = c1
    /\ Py.hex_digit_upper (n mod 16) = c2.
Proof.
  intros U1 U2.
  destruct (upper_hex_has_value _ U1) as [d1 H1].
  destruct (upper_hex_has_value _ U2) as [d2 H2].
  destruct (hex_value_facts _ _ H1) as [R1 _].
  destruct (hex_value_facts _ _ H2) as [R2 _].
  exists (16 * d1 + d2).
  assert (Hq : (16 * d1 + d2) / 16 = d1)
    by (symmetry; apply (Z.div_unique _ 16 d1 d2); lia).
  assert (Hr : (16 * d1 + d2) mod 16 = d2)
    by (symmetry; apply (Z.mod_unique _ 16 d1 d2); lia).
  rewrite Hq, Hr. repeat split; try lia.
  - apply int16_hex_pair; assumption.
  - apply digit_upper_hex_value; assumption.
  - apply digit_upper_hex_value; assumption.
Qed.

(** C3. Encoding the pixel of a code gives the code back: for every
    string made of '#' and 8 upper-case base-16 digits, [hex_to_rgba]
    succeeds on it and [rgba_to_hex] of its result is the string. *)
Theorem encode_decode_code (code : string) :
  well_formed_upper code = true ->
  exists px, hex_to_rgba code = inr px /\ rgba_to_hex px = code.
Proof.
  intros Hwf.
  destruct (well_formed_upper_shape _ Hwf)
    as (c1 & c2 & c3 & c4 & c5 & c6 & c7 & c8 & -> & Hup).
  repeat match goal with H : Forall _ (_ :: _) |- _ => inversion_clear H end.
  destruct (upper_pair_round_trip c1 c2) as (r & Hr & Ir & <- & <-); try done.
  destruct (upper_pair_round_trip c3 c4) as (g & Hg & Ig & <- & <-); try done.
  destruct (upper_pair_round_trip c5 c6) as (b & Hb & Ib & <- & <-); try done.
  destruct (upper_pair_round_trip c7 c8) as (a & Ha & Ia & <- & <-); try done.
  exists (r, g, b, a). split.
  - rewrite hex_to_rgba_code, Ir, Ig, Ib, Ia. reflexivity.
  - apply rgba_to_hex_bytes. repeat split; lia.
Qed.

Lemma encode_decode_code_witness :
  exists px, hex_to_rgba "#12AB00FF" = inr px /\ rgba_to_hex px = "#12AB00FF".
Proof. apply encode_decode_code. reflexivity. Defined.

(** Beyond two digits, [int(s, 16)] also takes a sign or whitespace
    with one digit; nothing else of length two. *)
Lemma all_ascii_complete c : In c all_ascii.
Proof.
  unfold all_ascii. rewrite <- (ascii_nat_embedding c).
  apply in_map, in_seq. pose proof (nat_ascii_bounded c). lia.
Qed.

Lemma int16_pair_checked :
  forallb (fun c1 => forallb (int16_pair_check c1) all_ascii) all_ascii = true.
Proof. vm_compute. reflexivity. Qed.

Lemma int16_pair c1 c2 :
  Py.int16 (pair_of_chars c1 c2) = int16_pair_spec c1 c2.
Proof.
  pose proof int16_pair_checked as H.
  rewrite forallb_forall in H.
  specialize (H c1 (all_ascii_complete c1)).
  rewrite forallb_forall in H.
  specialize (H c2 (all_ascii_complete c2)).
  unfold int16_pair_check in H. apply bool_decide_eq_true in H. exact H.
Qed.

(** The format test of lines 18-19: exactly the strings that do not
    start with '#' or are not 9 characters long are refused there. *)
Lemma hex_to_rgba_format hex_code :
  hex_to_rgba hex_code = inl (ValueError (InvalidHexFormat hex_code))
  <-> Py.startswith "#" hex_code = false \/ Py.len hex_code <> 9.
Proof.
  unfold hex_to_rgba.
  destruct (Py.startswith "#" hex_code); cbn [negb orb].
  - destruct (Z.eqb_spec (Py.len hex_code) 9) as [E | E]; cbn [negb].
    + split; [|intros [? | ?]; [discriminate | contradiction]].
      destruct (_ ≫= _); discriminate.
    + split; [right; assumption | reflexivity].
  - split; [left; reflexivity | reflexivity].
Qed.

(** C4. The string "#-1000000" starts with '#' and has 9 characters,
    its first two-character substring "-1" is not made of base-16
    digits, and still [hex_to_rgba] does not fail on it: it returns
    the channels (-1, 0, 0, 0). *)
Theorem hex_to_rgba_accepts_signed :
  all_chars is_hex (Py.slice 1 3 "#-1000000") = false
  /\ hex_to_rgba "#-1000000" = inr (-1, 0, 0, 0).
Proof. split; reflexivity. Qed.

(** ** The importer *)

Lemma is_empty_true s : Py.is_empty s = true <-> s = "".
Proof. destruct s; split; intros H; try reflexivity; discriminate. Qed.

Lemma blank_is_empty line : blank line <-> Py.is_empty (Py.strip line) = true.
Proof. unfold blank. symmetry. apply is_empty_true. Qed.

Lemma not_blank_is_empty line :
  ~ blank line <-> Py.is_empty (Py.strip line) = false.
Proof. rewrite blank_is_empty. destruct (Py.is_empty _); intuition congruence. Qed.

Lemma parse_lines_blank y line rest g w :
  blank line -> parse_lines ((y, line) :: rest) g w = parse_lines rest g w.
Proof. intros H%blank_is_empty. cbn [parse_lines]. rewrite H. reflexivity. Qed.

Lemma parse_lines_first y line rest g :
  ~ blank line ->
  parse_lines ((y, line) :: rest) g (-1) =
  parse_lines rest (g ++ [tokens_of line]) (token_count line).
Proof.
  intros H%not_blank_is_empty. cbn [parse_lines]. rewrite H. reflexivity.
Qed.

Lemma parse_lines_next y line rest g w :
  ~ blank line -> w <> -1 ->
  parse_lines ((y, line) :: rest) g w =
  if token_count line =? w then parse_lines rest (g ++ [tokens_of line]) w
  else inl (ValueError
              (InconsistentRowLength (Z.of_nat y + 1) w (token_count line))).
Proof.
  intros H%not_blank_is_empty Hw. cbn [parse_lines]. rewrite H.
  replace (w =? -1) with false by lia.
  fold (tokens_of line). fold (token_count line).
  destruct (token_count line =? w); reflexivity.
Qed.

Lemma token_count_nonneg line : token_count line <> -1.
Proof. unfold token_count. lia. Qed.

(** Blank lines at the head of the text only advance the line counter. *)
Lemma parse_skip_blank pre : forall i rest g w,
  Forall blank pre ->
  parse_lines (enumerate_from i (pre ++ rest)) g w =
  parse_lines (enumerate_from (i + length pre) rest) g w.
Proof.
  induction pre as [|b pre IH]; intros i rest g w Hb.
  - cbn. rewrite Nat.add_0_r. reflexivity.
  - inversion_clear Hb as [|? ? Hb1 Hb2].
    cbn [app enumerate_from]. rewrite parse_lines_blank by assumption.
    rewrite IH by assumption. f_equal. f_equal. cbn [length]. lia.
Qed.

(** Lines that are blank or have the expected number of tokens are
    consumed; the kept ones are appended to the grid. *)
Lemma parse_consistent mid : forall i rest g w,
  w <> -1 ->
  Forall (fun l => blank l \/ token_count l = w) mid ->
  parse_lines (enumerate_from i (mid ++ rest)) g w =
  parse_lines (enumerate_from (i + length mid) rest) (g ++ kept_rows mid) w.
Proof.
  induction mid as [|l mid IH]; intros i rest g w Hw Hmid.
  - cbn. rewrite Nat.add_0_r, app_nil_r. reflexivity.
  - inversion_clear Hmid as [|? ? Hl Hmid'].
    cbn [app enumerate_from length].
    replace (i + S (length mid))%nat with (S i + length mid)%nat by lia.
    unfold kept_rows. cbn [List.filter].
    destruct (Py.is_empty (Py.strip l)) eqn:E; cbn [negb].
    + rewrite parse_lines_blank by (apply blank_is_empty; exact E).
      apply IH; assumption.
    + assert (Hnb : ~ blank l) by (apply not_blank_is_empty; exact E).
      destruct Hl as [Hl | Hl]; [contradiction|].
      rewrite parse_lines_next by assumption.
      replace (token_count l =? w) with true by lia.
      rewrite IH by assumption. unfold kept_rows.
      cbn [map]. rewrite <- app_assoc. reflexivity.
Qed.

(** Once the width is set, a non-blank line with another number of
    tokens anywhere ahead makes the row loop fail, at that line or at
    an earlier offending one. *)
Lemma parse_some_inconsistent mid : forall i bad post g w,
  w <> -1 -> ~ blank bad -> token_count bad <> w ->
  exists row got,
    parse_lines (enumerate_from i (mid ++ bad :: post)) g w
      = inl (ValueError (InconsistentRowLength row w got))
    /\ got <> w
    /\ Z.of_nat i + 1 <= row <= Z.of_nat (i + length mid) + 1.
Proof.
  induction mid as [|l mid IH]; intros i bad post g w Hw Hbad Hneq.
  - cbn [app enumerate_from length]. rewrite parse_lines_next by assumption.
    replace (token_count bad =? w) with false by lia.
    do 2 eexists. split; [reflexivity|]. split; [exact Hneq | lia].
  - cbn [app enumerate_from length].
    destruct (Py.is_empty (Py.strip l)) eqn:E.
    + rewrite parse_lines_blank by (apply blank_is_empty; exact E).
      destruct (IH (S i) bad post g w Hw Hbad Hneq) as (row & got & -> & ? & ?).
      exists row, got. split; [reflexivity|]. split; [assumption | lia].
    + rewrite parse_lines_next
        by (assumption || (apply not_blank_is_empty; exact E)).
      destruct (Z.eqb_spec (token_count l) w) as [_ | Hl].
      * destruct (IH (S i) bad post (g ++ [tokens_of l])%list w Hw Hbad Hneq)
          as (row & got & -> & ? & ?).
        exists row, got. split; [reflexivity|]. split; [assumption | lia].
      * do 2 eexists. split; [reflexivity|]. split; [exact Hl | lia].
Qed.

(** The row loop raises nothing but row-length errors. *)
Lemma parse_lines_error lines : forall g w e,
  parse_lines lines g w = inl e ->
  exists row expected got,
    e = ValueError (InconsistentRowLength row expected got).
Proof.
  induction lines as [|[y line] rest IH]; intros g w e; cbn [parse_lines].
  - discriminate.
  - destruct (Py.is_empty (Py.strip line)); [apply IH|].
    destruct (w =? -1); [apply IH|].
    destruct (negb _); [|apply IH].
    intros [= <-]. eauto.
Qed.

(** A list compared with the tuples of [valid_sizes] is never found
    among them. *)
Lemma list_not_in_valid_sizes width height :
  Py.py_in (Py.PyList [width; height]) valid_sizes = false.
Proof. reflexivity. Qed.

Lemma tuple_in_valid_sizes width height :
  Py.py_in (Py.PyTuple [width; height]) valid_sizes = true
  <-> valid_dimension width height.
Proof.
  unfold Py.py_in, valid_sizes, valid_dimension, Py.py_eq, Py.items_eqb.
  cbn [existsb]. rewrite !orb_true_iff, !bool_decide_eq_true.
  split.
  - intros [H | [H | [H | H]]]; try discriminate H;
      injection H as <- <-; auto.
  - intros [H | [H | H]]; injection H as -> ->; auto.
Qed.

(** Every run of the importer on a text file, in full: an empty file
    is reported as empty; a row-length error is reported; and every
    grid that reaches the size test of line 109 is refused there. *)
Lemma hex_grid_to_png_text w0 inp out data :
  files w0 !! inp = Some (TextFile data) ->
  hex_grid_to_png inp out w0 =
  match Py.readlines data with
  | [] => printed w0 InputTxtEmpty
  | _ :: _ =>
      match parse_lines (enumerate (Py.readlines data)) [] (-1) with
      | inl e => printed w0 (TextGridError e)
      | inr (grid_data, width) =>
          printed w0
            (TextGridError
               (ValueError
                  (HexWrongDimension width (Z.of_nat (length grid_data)))))
      end
  end.
Proof.
  intros Hin.
  unfold hex_grid_to_png, mbind, M_bind, os_path_exists, try_except,
    open_readlines.
  cbv beta. rewrite Hin, bool_decide_eq_true_2 by eauto.
  cbv beta iota delta [negb]. rewrite Hin. cbv beta iota.
  destruct (Py.readlines data) as [|l ls] eqn:Hl; [reflexivity|].
  rewrite bool_decide_eq_false_2 by discriminate.
  unfold lift.
  destruct (parse_lines _ _ _) as [e | [grid_data width]] eqn:Hp.
  - destruct (parse_lines_error _ _ _ _ Hp) as (r & x & g & ->).
    reflexivity.
  - rewrite list_not_in_valid_sizes. reflexivity.
Qed.

Lemma hex_grid_to_png_missing w0 inp out :
  files w0 !! inp = None ->
  hex_grid_to_png inp out w0 = printed w0 (InputTxtNotFound inp).
Proof.
  intros Hin. unfold hex_grid_to_png, mbind, M_bind, os_path_exists.
  rewrite Hin, bool_decide_eq_false_2 by (intros [? ?]; discriminate).
  reflexivity.
Qed.

Lemma lines_of_nil s : Py.lines_of s = [] <-> s = "".
Proof.
  split; [|intros ->; reflexivity].
  destruct s as [|c s]; [reflexivity|]. cbn [Py.lines_of].
  destruct (Ascii.eqb c "010"); [discriminate|].
  destruct (Py.lines_of s); [discriminate|].
  destruct (Py.is_empty s); discriminate.
Qed.

Lemma universal_newlines_nil s : Py.universal_newlines s = "" <-> s = "".
Proof.
  split; [|intros ->; reflexivity].
  destruct s as [|c s]; [reflexivity|]. cbn [Py.universal_newlines].
  destruct (Ascii.eqb c "013"); [|discriminate].
  destruct s as [|c' s]; [discriminate|].
  destruct (Ascii.eqb c' "010"); discriminate.
Qed.

(** [readlines] returns no line exactly on the empty text. *)
Lemma readlines_nil data : Py.readlines data = [] <-> data = "".
Proof.
  unfold Py.readlines. rewrite lines_of_nil. apply universal_newlines_nil.
Qed.

Lemma printed_inj w l1 l2 : printed w l1 = printed w l2 -> l1 = l2.
Proof.
  unfold printed. intros [= H]. apply app_inv_head in H.
  injection H as ->. reflexivity.
Qed.

Lemma text_world_lookup path data :
  files (text_world path data) !! path = Some (TextFile data).
Proof. apply lookup_singleton_eq. Qed.

(** C6, as the code has it.  The first non-blank line sets the
    expected width.  When a later non-blank line has another number of
    tokens (the lines in between being blank or of the expected width,
    so that it is the first such line), the import prints the
    row-length error with the number of that line in the file, blank
    lines counted, the expected width and the number of tokens found,
    and leaves the files as they were. *)
Theorem import_inconsistent_row w0 inp out data pre first mid bad post :
  files w0 !! inp = Some (TextFile data) ->
  Py.readlines data = (pre ++ first :: mid ++ bad :: post)%list ->
  Forall blank pre -> ~ blank first ->
  Forall (fun l => blank l \/ token_count l = token_count first) mid ->
  ~ blank bad -> token_count bad <> token_count first ->
  hex_grid_to_png inp out w0 =
  printed w0
    (TextGridError
       (ValueError
          (InconsistentRowLength
             (Z.of_nat (length pre + 1 + length mid) + 1)
             (token_count first) (token_count bad)))).
Proof.
  intros Hin Hlines Hpre Hfirst Hmid Hbad Hneq.
  rewrite (hex_grid_to_png_text _ _ _ _ Hin), Hlines. clear Hlines.
  destruct (pre ++ _)%list as [|l0 ls] eqn:Hshape;
    [destruct pre; discriminate Hshape|].
  rewrite <- Hshape. clear Hshape l0 ls. unfold enumerate.
  rewrite parse_skip_blank by assumption.
  cbn [enumerate_from]. rewrite parse_lines_first by assumption.
  rewrite parse_consistent by (auto using token_count_nonneg).
  cbn [enumerate_from].
  rewrite parse_lines_next by (auto using token_count_nonneg).
  replace (token_count bad =? token_count first) with false by lia.
  do 4 f_equal. lia.
Qed.

Lemma import_inconsistent_row_witness :
  hex_grid_to_png "grid.txt" "skin.png"
    (text_world "grid.txt" (line_of 64 "#000000FF" ++ line_of 63 "#000000FF"))
  = printed
      (text_world "grid.txt" (line_of 64 "#000000FF" ++ line_of 63 "#000000FF"))
      (TextGridError (ValueError (InconsistentRowLength 2 64 63))).
Proof.
  apply import_inconsistent_row
    with (data := line_of 64 "#000000FF" ++ line_of 63 "#000000FF")
         (pre := []) (first := line_of 64 "#000000FF") (mid := [])
         (bad := line_of 63 "#000000FF") (post := []).
  - reflexivity.
  - vm_compute. reflexivity.
  - constructor.
  - unfold blank. vm_compute. discriminate.
  - constructor.
  - unfold blank. vm_compute. discriminate.
  - vm_compute. discriminate.
Defined.

(** C6, counterexample.  The number in the error is not the number of
    the offending row.  In a text of a row of 3 tokens, a blank line
    and a row of 2 tokens, the offending row is the second row of the
    grid, and the error names 3; and of two offending rows only the
    first is named. *)
Lemma offending_row_named_by_file_line :
  kept_rows
    (Py.readlines
       (line_of 3 "#000000FF" ++ Py.newline ++ line_of 2 "#000000FF"))
  = [replicate 3 "#000000FF"; replicate 2 "#000000FF"]
  /\ stdout
       (fst (hex_grid_to_png "grid.txt" "skin.png"
               (text_world "grid.txt"
                  (line_of 3 "#000000FF" ++ Py.newline
                   ++ line_of 2 "#000000FF"))))
     = [TextGridError (ValueError (InconsistentRowLength 3 3 2))]
  /\ stdout
       (fst (hex_grid_to_png "grid.txt" "skin.png"
               (text_world "grid.txt"
                  (line_of 3 "#000000FF" ++ line_of 2 "#000000FF"
                   ++ line_of 1 "#000000FF"))))
     = [TextGridError (ValueError (InconsistentRowLength 2 3 2))].
Proof.
  rewrite !(hex_grid_to_png_text _ _ _ _ (text_world_lookup _ _)).
  split; [|split]; reflexivity.
Qed.

(** C9, as the code has it.  A missing source path is reported as not
    found; a text file is reported as empty exactly when it has no
    content at all; in both cases the files are left as they were. *)
Theorem import_missing_or_empty w0 inp out :
  (files w0 !! inp = None ->
   hex_grid_to_png inp out w0 = printed w0 (InputTxtNotFound inp))
  /\ (forall data, files w0 !! inp = Some (TextFile data) ->
      (hex_grid_to_png inp out w0 = printed w0 InputTxtEmpty <-> data = "")).
Proof.
  split; [apply hex_grid_to_png_missing|].
  intros data Hin. rewrite (hex_grid_to_png_text _ _ _ _ Hin).
  rewrite <- readlines_nil.
  destruct (Py.readlines data) as [|l ls]; [tauto|].
  split; [|discriminate].
  destruct (parse_lines _ _ _) as [e | [g w]];
    intros H%printed_inj; discriminate H.
Qed.

Lemma import_missing_or_empty_witness :
  hex_grid_to_png "absent.txt" "skin.png" (text_world "grid.txt" "")
  = printed (text_world "grid.txt" "") (InputTxtNotFound "absent.txt")
  /\ hex_grid_to_png "grid.txt" "skin.png" (text_world "grid.txt" "")
     = printed (text_world "grid.txt" "") InputTxtEmpty.
Proof.
  split.
  - apply (proj1 (import_missing_or_empty _ "absent.txt" "skin.png")).
    vm_compute. reflexivity.
  - apply (proj2 (import_missing_or_empty _ "grid.txt" "skin.png") "").
    + reflexivity.
    + reflexivity.
Defined.

(** C9, counterexample.  A file made of one blank line has no usable
    line, and the import does not report it as empty: it reports the
    size -1x0 as wrong. *)
Lemma blank_file_not_reported_empty :
  Py.readlines Py.newline <> [] /\ Forall blank (Py.readlines Py.newline)
  /\ hex_grid_to_png "grid.txt" "skin.png" (text_world "grid.txt" Py.newline)
     = printed (text_world "grid.txt" Py.newline)
         (TextGridError (ValueError (HexWrongDimension (-1) 0)))
  /\ hex_grid_to_png "grid.txt" "skin.png" (text_world "grid.txt" Py.newline)
     <> printed (text_world "grid.txt" Py.newline) InputTxtEmpty.
Proof.
  assert (H : hex_grid_to_png "grid.txt" "skin.png"
                (text_world "grid.txt" Py.newline)
              = printed (text_world "grid.txt" Py.newline)
                  (TextGridError (ValueError (HexWrongDimension (-1) 0))))
    by (rewrite (hex_grid_to_png_text _ _ _ _ (text_world_lookup _ _));
        reflexivity).
  split; [discriminate|]. split; [repeat constructor|].
  split; [exact H|]. rewrite H. intros E%printed_inj. discriminate E.
Qed.

(** Starting the line counter one later moves a row-length error one
    down. *)
Lemma parse_lines_shift lines : forall i k g w,
  (k <= Z.of_nat i) ->
  parse_lines (enumerate_from (S i) lines) g w =
  shift_row_after k (parse_lines (enumerate_from i lines) g w).
Proof.
  induction lines as [|line rest IH]; intros i k g w Hk; [reflexivity|].
  cbn [enumerate_from parse_lines].
  destruct (Py.is_empty (Py.strip line)); [apply IH; lia|].
  destruct (w =? -1); [apply IH; lia|].
  destruct (negb _); [|apply IH; lia].
  cbn [shift_row_after].
  replace (Z.of_nat i + 1 <=? k) with false by lia.
  do 3 f_equal. lia.
Qed.

Lemma parse_lines_insert_blank l1 : forall i b l2 g w,
  blank b ->
  parse_lines (enumerate_from i (l1 ++ b :: l2)) g w =
  shift_row_after (Z.of_nat (i + length l1))
    (parse_lines (enumerate_from i (l1 ++ l2)) g w).
Proof.
  induction l1 as [|line l1 IH]; intros i b l2 g w Hb.
  - cbn [app enumerate_from length]. rewrite parse_lines_blank by assumption.
    rewrite Nat.add_0_r. apply parse_lines_shift. lia.
  - cbn [app enumerate_from length parse_lines].
    replace (i + S (length l1))%nat with (S i + length l1)%nat by lia.
    destruct (Py.is_empty (Py.strip line)); [apply IH; assumption|].
    destruct (w =? -1); [apply IH; assumption|].
    destruct (negb _); [|apply IH; assumption].
    cbn [shift_row_after].
    rewrite (proj2 (Z.leb_le _ _)) by lia. reflexivity.
Qed.

(** C8, as the code has it.  A blank line inserted anywhere in the
    text changes neither the grid of tokens nor the expected width
    (hence neither the computed width nor the height); a row-length
    error keeps its two counts, and its row number, which is the
    number of the line in the file, grows by one when the blank line
    comes before the offending line. *)
Theorem blank_line_insertion (l1 l2 : list string) (b : string) :
  blank b ->
  parse_lines (enumerate (l1 ++ b :: l2)) [] (-1) =
  shift_row_after (Z.of_nat (length l1))
    (parse_lines (enumerate (l1 ++ l2)) [] (-1)).
Proof. intros Hb. apply (parse_lines_insert_blank l1 0). exact Hb. Qed.

Lemma blank_line_insertion_witness :
  parse_lines
    (enumerate
       ([line_of 2 "#000000FF"] ++ Py.newline :: [line_of 1 "#000000FF"]))
    [] (-1)
  = shift_row_after 1
      (parse_lines
         (enumerate ([line_of 2 "#000000FF"] ++ [line_of 1 "#000000FF"]))
         [] (-1)).
Proof. apply (blank_line_insertion [_] [_]). reflexivity. Defined.

(** C8, counterexample.  With a blank line put between the two rows,
    the same offending row is reported as row 3 instead of row 2. *)
Lemma blank_line_shifts_reported_row :
  stdout
    (fst (hex_grid_to_png "grid.txt" "skin.png"
            (text_world "grid.txt"
               (line_of 2 "#000000FF" ++ line_of 1 "#000000FF"))))
  = [TextGridError (ValueError (InconsistentRowLength 2 2 1))]
  /\ stdout
       (fst (hex_grid_to_png "grid.txt" "skin.png"
               (text_world "grid.txt"
                  (line_of 2 "#000000FF" ++ Py.newline
                   ++ line_of 1 "#000000FF"))))
     = [TextGridError (ValueError (InconsistentRowLength 3 2 1))].
Proof.
  rewrite !(hex_grid_to_png_text _ _ _ _ (text_world_lookup _ _)).
  split; reflexivity.
Qed.

(** ** The exporter *)

Lemma size_convert_RGBA img : size (convert_RGBA img) = size img.
Proof. unfold convert_RGBA. destruct (mode img); reflexivity. Qed.

Lemma for_each_write out (f : nat -> string) ys : forall fs so data,
  for_each ys (fun y => f_write out (f y))
    (World (<[out := TextFile data]> fs) so)
  = (World (<[out := TextFile (fold_left (fun d y => d ++ f y) ys data)]> fs)
       so, inr tt).
Proof.
  induction ys as [|y ys IH]; intros fs so data; [reflexivity|].
  cbn [for_each fold_left]. unfold mbind, M_bind, f_write at 1.
  cbn [files stdout]. rewrite alter_insert_eq. cbn [append_text].
  apply IH.
Qed.

(** Every run of the exporter on an image file, in full. *)
Lemma png_to_hex_grid_image w0 inp out img :
  files w0 !! inp = Some (ImageFile img) ->
  png_to_hex_grid inp out w0 =
  let '(width, height) := size img in
  if Py.py_in (Py.PyTuple [width; height]) valid_sizes then
    (World (<[out := TextFile (export_text (convert_RGBA img))]> (files w0))
       (stdout w0 ++ [ImageLoaded inp width height; HexGridWritten out]),
     inr tt)
  else
    printed w0 (PngToTextError (ValueError (ImageWrongDimension width height))).
Proof.
  intros Hin.
  unfold png_to_hex_grid, mbind, M_bind, os_path_exists, try_except,
    Image_open.
  cbv beta. rewrite Hin, bool_decide_eq_true_2 by eauto.
  cbv beta iota delta [negb]. rewrite Hin. cbv beta iota.
  unfold export_text, export_line. rewrite size_convert_RGBA.
  destruct (size img) as [width height] eqn:Hsize. cbn [fst snd].
  destruct (Py.py_in _ _); cbn [negb]; [|reflexivity].
  unfold print at 1, open_w. cbn [files stdout].
  rewrite (for_each_write out
             (fun y => Py.join " " (export_row (pixels (convert_RGBA img))
                                      width y) ++ Py.newline)).
  unfold print. cbn [files stdout].
  rewrite <- app_assoc. reflexivity.
Qed.

Lemma png_to_hex_grid_missing w0 inp out :
  files w0 !! inp = None ->
  png_to_hex_grid inp out w0 = printed w0 (InputPngNotFound inp).
Proof.
  intros Hin. unfold png_to_hex_grid, mbind, M_bind, os_path_exists.
  rewrite Hin, bool_decide_eq_false_2 by (intros [? ?]; discriminate).
  reflexivity.
Qed.

Lemma image_world_lookup path img :
  files (image_world path img) !! path = Some (ImageFile img).
Proof. apply lookup_singleton_eq. Qed.

(** C5. In both directions a size other than 64x32, 64x64 and 128x128
    is refused: the exporter on an image of such a size, and the
    importer on a text whose rows are consistent and whose computed
    width and height make such a size, print the wrong-dimension
    error carrying the actual width and height, and leave the files
    as they were. *)
Theorem other_sizes_rejected w0 inp out :
  (forall img width height,
     files w0 !! inp = Some (ImageFile img) ->
     size img = (width, height) ->
     ~ valid_dimension width height ->
     png_to_hex_grid inp out w0 =
     printed w0
       (PngToTextError (ValueError (ImageWrongDimension width height))))
  /\ (forall data grid_data width,
      files w0 !! inp = Some (TextFile data) ->
      Py.readlines data <> [] ->
      parse_lines (enumerate (Py.readlines data)) [] (-1)
        = inr (grid_data, width) ->
      ~ valid_dimension width (Z.of_nat (length grid_data)) ->
      hex_grid_to_png inp out w0 =
      printed w0
        (TextGridError
           (ValueError
              (HexWrongDimension width (Z.of_nat (length grid_data)))))).
Proof.
  split.
  - intros img width height Hin Hsize Hbad.
    rewrite (png_to_hex_grid_image _ _ _ _ Hin), Hsize.
    destruct (Py.py_in _ _) eqn:E; [|reflexivity].
    apply tuple_in_valid_sizes in E. contradiction.
  - intros data grid_data width Hin Hne Hparse _.
    rewrite (hex_grid_to_png_text _ _ _ _ Hin), Hparse.
    destruct (Py.readlines data); [contradiction|reflexivity].
Qed.

Lemma other_sizes_rejected_witness :
  png_to_hex_grid "skin.png" "grid.txt"
    (image_world "skin.png" (plain_image ModeRGBA 10 10 (0, 0, 0, 255)))
  = printed
      (image_world "skin.png" (plain_image ModeRGBA 10 10 (0, 0, 0, 255)))
      (PngToTextError (ValueError (ImageWrongDimension 10 10)))
  /\ hex_grid_to_png "grid.txt" "skin.png"
       (text_world "grid.txt" (grid_text 3 2 "#000000FF"))
     = printed (text_world "grid.txt" (grid_text 3 2 "#000000FF"))
         (TextGridError (ValueError (HexWrongDimension 3 2))).
Proof.
  split.
  - apply (proj1 (other_sizes_rejected _ "skin.png" "grid.txt")
             (plain_image ModeRGBA 10 10 (0, 0, 0, 255))).
    + reflexivity.
    + reflexivity.
    + unfold valid_dimension. intros [H | [H | H]]; discriminate H.
  - apply (proj2 (other_sizes_rejected _ "grid.txt" "skin.png")
             (grid_text 3 2 "#000000FF")
             [replicate 3 "#000000FF"; replicate 3 "#000000FF"]).
    + reflexivity.
    + vm_compute. discriminate.
    + vm_compute. reflexivity.
    + unfold valid_dimension. intros [H | [H | H]]; discriminate H.
Defined.

(** ** The pixel loop of the importer *)

Lemma world_eta w : World (files w) (stdout w) = w.
Proof. destruct w; reflexivity. Qed.

Lemma hex_to_rgba_error hex_code e :
  hex_to_rgba hex_code = inl e -> is_ValueError e = true /\ e <> IndexError.
Proof.
  unfold hex_to_rgba. destruct (_ || _).
  - intros [= <-]. split; [reflexivity | discriminate].
  - destruct (_ ≫= _); [discriminate|].
    intros [= <-]. split; [reflexivity | discriminate].
Qed.

(** One position: the decoded pixel is stored, or transparent black
    with a warning. *)
Lemma import_pixel_run grid_data y x px w :
  import_pixel grid_data y x px w =
  (World (files w) (stdout w ++ cell_warning grid_data x y),
   inr (putpixel px x y (cell_pixel grid_data x y))).
Proof.
  unfold import_pixel, cell_pixel, cell_warning, cell, try_except.
  destruct (grid_data !! y ≫= _) as [hex_code|]; [|reflexivity].
  unfold mbind, M_bind, lift.
  destruct (hex_to_rgba hex_code) as [e | rgba] eqn:E.
  - destruct (hex_to_rgba_error _ _ E) as [Hv Hi].
    destruct e; try discriminate Hv; reflexivity.
  - unfold mret, M_ret. rewrite app_nil_r, world_eta. reflexivity.
Qed.

Lemma fill_row_run grid_data y xs : forall px w,
  for_fold xs px (fun x px => import_pixel grid_data y x px) w =
  (World (files w)
     (stdout w ++ flat_map (fun x => cell_warning grid_data x y) xs),
   inr (fill_row grid_data xs y px)).
Proof.
  induction xs as [|x xs IH]; intros px w.
  - cbn. rewrite app_nil_r, world_eta. reflexivity.
  - cbn [for_fold]. unfold mbind, M_bind. rewrite import_pixel_run, IH.
    cbn [files stdout flat_map]. rewrite <- app_assoc. reflexivity.
Qed.

Lemma populate_run grid_data width height px w :
  populate grid_data width height px w =
  (World (files w)
     (stdout w ++ warnings grid_data (range width) (range height)),
   inr (fill grid_data (range width) (range height) px)).
Proof.
  unfold populate, warnings, fill.
  generalize (range height) as ys. intros ys. revert px w.
  induction ys as [|y ys IH]; intros px w.
  - cbn. rewrite app_nil_r, world_eta. reflexivity.
  - cbn [for_fold]. unfold mbind, M_bind. rewrite fill_row_run, IH.
    cbn [files stdout flat_map fold_left]. rewrite <- app_assoc. reflexivity.
Qed.

Lemma fill_row_at grid_data y xs : forall px x' y',
  fill_row grid_data xs y px x' y' =
  if bool_decide (x' ∈ xs) && (y' =? y)%nat
  then cell_pixel grid_data x' y else px x' y'.
Proof.
  unfold fill_row.
  induction xs as [|x xs IH]; intros px x' y'; [reflexivity|].
  cbn [fold_left]. rewrite IH. unfold putpixel.
  destruct (Nat.eqb_spec y' y) as [-> | Hy];
    [|rewrite !andb_false_r; reflexivity].
  rewrite !andb_true_r.
  destruct (decide (x' ∈ xs)) as [Hin | Hin].
  - rewrite !bool_decide_eq_true_2 by (try right; assumption). reflexivity.
  - rewrite (bool_decide_eq_false_2 (x' ∈ xs)) by assumption.
    destruct (Nat.eqb_spec x' x) as [-> | Hx].
    + rewrite bool_decide_eq_true_2 by left. reflexivity.
    + rewrite bool_decide_eq_false_2; [reflexivity|].
      intros [? | ?]%elem_of_cons; contradiction.
Qed.

Lemma fill_at grid_data xs ys : forall px x' y',
  fill grid_data xs ys px x' y' =
  if bool_decide (x' ∈ xs) && bool_decide (y' ∈ ys)
  then cell_pixel grid_data x' y' else px x' y'.
Proof.
  unfold fill.
  induction ys as [|y ys IH]; intros px x' y'.
  - cbn. rewrite andb_false_r. reflexivity.
  - cbn [fold_left]. rewrite IH, fill_row_at.
    destruct (bool_decide (x' ∈ xs)); cbn [andb].
    + destruct (decide (y' ∈ ys)) as [Hin | Hin].
      * rewrite !bool_decide_eq_true_2 by (try right; assumption).
        reflexivity.
      * rewrite (bool_decide_eq_false_2 (y' ∈ ys)) by assumption.
        destruct (Nat.eqb_spec y' y) as [-> | Hy].
        -- rewrite bool_decide_eq_true_2 by left. reflexivity.
        -- rewrite bool_decide_eq_false_2; [reflexivity|].
           intros [? | ?]%elem_of_cons; contradiction.
    + destruct (bool_decide (y' ∈ ys)); reflexivity.
Qed.

Lemma elem_of_range n (i : nat) : i ∈ range n <-> (i < Z.to_nat n)%nat.
Proof. unfold range. rewrite elem_of_seq. lia. Qed.

(** The pixel loop by itself does what is asked of it: it never
    raises; every position inside the image whose token decodes gets
    the decoded pixel; every position whose token does not decode gets
    transparent black and a warning naming its row and column. *)
Lemma populate_substitutes grid_data width height px w :
  exists px' warned,
    populate grid_data width height px w
      = (World (files w) (stdout w ++ warned), inr px')
    /\ forall x y hex_code,
         (x < Z.to_nat width)%nat -> (y < Z.to_nat height)%nat ->
         cell grid_data x y = Some hex_code ->
         match hex_to_rgba hex_code with
         | inr rgba => px' x y = rgba
         | inl e =>
             px' x y = (0, 0, 0, 0)
             /\ HexParseError (Z.of_nat y + 1) (Z.of_nat x + 1) e ∈ warned
         end.
Proof.
  do 2 eexists. split; [apply populate_run|].
  intros x y hex_code Hx Hy Hcell.
  rewrite fill_at, !bool_decide_eq_true_2 by (apply elem_of_range; assumption).
  cbn [andb]. unfold cell_pixel. rewrite Hcell.
  destruct (hex_to_rgba hex_code) as [e | rgba] eqn:E; [|reflexivity].
  split; [reflexivity|].
  unfold warnings. apply list_elem_of_In, in_flat_map.
  exists y. split; [apply list_elem_of_In, elem_of_range; assumption|].
  apply in_flat_map. exists x.
  split; [apply list_elem_of_In, elem_of_range; assumption|].
  unfold cell_warning. rewrite Hcell, E. left. reflexivity.
Qed.

(** The importer never writes: whatever the world, it prints one line,
    which is not the success line, and leaves the files as they
    were. *)
Lemma hex_grid_to_png_never_succeeds w0 inp out :
  exists l, hex_grid_to_png inp out w0 = printed w0 l /\ l <> PngCreated out.
Proof.
  destruct (files w0 !! inp) as [[data | img]|] eqn:Hin.
  - rewrite (hex_grid_to_png_text _ _ _ _ Hin).
    destruct (Py.readlines data); [eexists; split; [reflexivity|discriminate]|].
    destruct (parse_lines _ _ _) as [e | [g wd]];
      eexists; (split; [reflexivity|discriminate]).
  - exists (TextGridError UnicodeDecodeError). split; [|discriminate].
    unfold hex_grid_to_png, mbind, M_bind, os_path_exists, try_except,
      open_readlines.
    cbv beta. rewrite Hin, bool_decide_eq_true_2 by eauto.
    cbv beta iota delta [negb]. rewrite Hin. reflexivity.
  - exists (InputTxtNotFound inp). split; [|discriminate].
    apply hex_grid_to_png_missing. exact Hin.
Qed.


(** ** The text of a grid, read back *)

Lemma append_assoc (a b c : string) : (a ++ b) ++ c = a ++ (b ++ c).
Proof.
  induction a as [|x a IH]; [reflexivity|].
  change (String x ((a ++ b) ++ c) = String x (a ++ (b ++ c))).
  rewrite IH. reflexivity.
Qed.

Lemma append_cons (x : ascii) (a b : string) :
  String x a ++ b = String x (a ++ b).
Proof. reflexivity. Qed.

Lemma append_nil_l (a : string) : "" ++ a = a.
Proof. reflexivity. Qed.

Lemma all_chars_app p a b :
  all_chars p (a ++ b) = all_chars p a && all_chars p b.
Proof.
  induction a as [|x a IH]; [reflexivity|].
  rewrite append_cons. cbn [all_chars]. rewrite IH, andb_assoc. reflexivity.
Qed.

Lemma all_chars_impl (p q : ascii -> bool) s :
  (forall c, p c = true -> q c = true) ->
  all_chars p s = true -> all_chars q s = true.
Proof.
  intros Hpq. induction s as [|x s IH]; [reflexivity|].
  cbn [all_chars]. rewrite !andb_true_iff. intros [Hx Hs]. auto.
Qed.

Lemma no_space_not_cr c : no_space c = true -> not_cr c = true.
Proof.
  unfold no_space, not_cr. destruct (Ascii.eqb_spec c "013") as [-> | _];
    [discriminate | reflexivity].
Qed.

Lemma no_space_not_lf c : no_space c = true -> not_lf c = true.
Proof.
  unfold no_space, not_lf. destruct (Ascii.eqb_spec c "010") as [-> | _];
    [discriminate | reflexivity].
Qed.

Lemma split_lstrip s : Py.split (Py.lstrip s) = Py.split s.
Proof.
  induction s as [|c s IH]; [reflexivity|].
  cbn [Py.lstrip Py.split]. destruct (Py.isspace c) eqn:E; [exact IH|].
  cbn [Py.split]. rewrite E. reflexivity.
Qed.

Lemma starts_token_rstrip s :
  Py.starts_token (Py.rstrip s) = Py.starts_token s.
Proof.
  destruct s as [|c s]; [reflexivity|]. cbn [Py.rstrip Py.starts_token].
  destruct (Py.isspace c) eqn:E; cbn [andb negb].
  - destruct (Py.is_empty (Py.rstrip s)); cbn [Py.starts_token];
      [reflexivity | rewrite E; reflexivity].
  - cbn [Py.starts_token]. rewrite E. reflexivity.
Qed.

Lemma split_rstrip s : Py.split (Py.rstrip s) = Py.split s.
Proof.
  induction s as [|c s IH]; [reflexivity|].
  cbn [Py.rstrip Py.split]. destruct (Py.isspace c) eqn:E; cbn [andb].
  - destruct (Py.is_empty (Py.rstrip s)) eqn:Er.
    + apply is_empty_true in Er. rewrite Er in IH. exact IH.
    + cbn [Py.split]. rewrite E. exact IH.
  - cbn [Py.split]. rewrite E, starts_token_rstrip, IH. reflexivity.
Qed.

(** Splitting does not see the stripping before it. *)
Lemma split_strip s : Py.split (Py.strip s) = Py.split s.
Proof. unfold Py.strip. rewrite split_rstrip. apply split_lstrip. Qed.

Lemma split_nil_lstrip s : Py.split s = [] -> Py.lstrip s = "".
Proof.
  induction s as [|c s IH]; [reflexivity|].
  cbn [Py.split Py.lstrip]. destruct (Py.isspace c); [exact IH|].
  destruct (Py.starts_token s); [destruct (Py.split s)|]; discriminate.
Qed.

(** A line is blank exactly when it has no token. *)
Lemma blank_iff_split s : blank s <-> Py.split s = [].
Proof.
  unfold blank. split.
  - intros H. rewrite <- split_strip, H. reflexivity.
  - intros H. unfold Py.strip. rewrite (split_nil_lstrip _ H). reflexivity.
Qed.

Lemma split_token t : forall s,
  is_token t -> Py.starts_token s = false ->
  Py.split (t ++ s) = t :: Py.split s.
Proof.
  induction t as [|c t IH]; intros s [Hne Hall] Hs; [contradiction|].
  cbn [all_chars] in Hall. apply andb_true_iff in Hall as [Hc Ht].
  unfold no_space in Hc. apply negb_true_iff in Hc.
  rewrite append_cons. cbn [Py.split]. rewrite Hc.
  destruct t as [|c' t].
  - rewrite append_nil_l, Hs. reflexivity.
  - assert (Hc' : Py.isspace c' = false).
    { cbn [all_chars] in Ht. apply andb_true_iff in Ht as [Hc' _].
      apply negb_true_iff in Hc'. exact Hc'. }
    rewrite IH by (assumption || (split; [discriminate | assumption])).
    rewrite append_cons. cbn [Py.starts_token]. rewrite Hc'. reflexivity.
Qed.

(** The tokens joined by single spaces split back into the tokens. *)
Lemma split_render_line row :
  Forall is_token row -> Py.split (render_line row) = row.
Proof.
  unfold render_line. induction row as [|t ts IH]; intros Hrow.
  - reflexivity.
  - inversion_clear Hrow as [|? ? Ht Hts]. cbn [Py.join].
    destruct ts as [|t' ts'].
    + rewrite split_token by (auto; reflexivity). reflexivity.
    + rewrite append_assoc, split_token by (auto; reflexivity).
      rewrite append_assoc. change (" " ++ ?s) with (String " " s).
      cbn [Py.split]. change (Py.isspace " ") with true. cbv iota.
      rewrite (IH Hts). reflexivity.
Qed.

Lemma tokens_of_render_line row :
  Forall is_token row -> tokens_of (render_line row) = row.
Proof. intros H. unfold tokens_of. rewrite split_strip. apply split_render_line, H. Qed.

Lemma render_line_not_blank row :
  row <> [] -> Forall is_token row -> ~ blank (render_line row).
Proof.
  intros Hne Hrow Hb. apply blank_iff_split in Hb.
  rewrite split_render_line in Hb by assumption. contradiction.
Qed.

Lemma universal_newlines_id s :
  all_chars not_cr s = true -> Py.universal_newlines s = s.
Proof.
  induction s as [|c s IH]; [reflexivity|].
  cbn [all_chars Py.universal_newlines]. rewrite andb_true_iff.
  unfold not_cr at 1. intros [Hc Hs]. apply negb_true_iff in Hc.
  rewrite Hc, IH by assumption. reflexivity.
Qed.

Lemma lines_of_line body : forall rest,
  all_chars not_lf body = true ->
  Py.lines_of ((body ++ Py.newline) ++ rest)
  = (body ++ Py.newline) :: Py.lines_of rest.
Proof.
  induction body as [|c body IH]; intros rest Hbody; [reflexivity|].
  cbn [all_chars] in Hbody. apply andb_true_iff in Hbody as [Hc Hb].
  unfold not_lf in Hc. apply negb_true_iff in Hc.
  rewrite !append_cons. cbn [Py.lines_of]. rewrite Hc, IH by assumption.
  destruct ((body ++ Py.newline) ++ rest) as [|c' s'] eqn:E; [|reflexivity].
  destruct body; discriminate E.
Qed.

Lemma join_chars p row :
  p " "%char = true -> Forall (fun t => all_chars p t = true) row ->
  all_chars p (Py.join " " row) = true.
Proof.
  intros Hsp. induction row as [|t ts IH]; intros Hrow; [reflexivity|].
  inversion_clear Hrow as [|? ? Ht Hts]. cbn [Py.join].
  destruct ts as [|t' ts']; [exact Ht|].
  rewrite !all_chars_app, Ht, (IH Hts). cbn [all_chars]. rewrite Hsp.
  reflexivity.
Qed.

Lemma render_line_chars p row :
  (forall c, no_space c = true -> p c = true) ->
  p " "%char = true -> p "010"%char = true ->
  Forall is_token row -> all_chars p (render_line row) = true.
Proof.
  intros Hp Hsp Hnl Hrow. unfold render_line.
  rewrite all_chars_app, join_chars; [cbn; rewrite Hnl; reflexivity|assumption|].
  eapply Forall_impl; [exact Hrow|].
  intros t [_ Ht]. apply (all_chars_impl no_space p); assumption.
Qed.

Lemma render_not_cr grid :
  Forall (Forall is_token) grid -> all_chars not_cr (render grid) = true.
Proof.
  induction grid as [|row rows IH]; intros Hg; [reflexivity|].
  inversion_clear Hg as [|? ? Hrow Hrows]. cbn [render].
  rewrite all_chars_app, IH by assumption.
  rewrite render_line_chars; auto using no_space_not_cr.
Qed.

Lemma lines_of_render grid :
  Forall (Forall is_token) grid ->
  Py.lines_of (render grid) = map render_line grid.
Proof.
  induction grid as [|row rows IH]; intros Hg; [reflexivity|].
  inversion_clear Hg as [|? ? Hrow Hrows]. cbn [render map].
  unfold render_line at 1. rewrite lines_of_line.
  - rewrite IH by assumption. reflexivity.
  - apply join_chars; [reflexivity|].
    eapply Forall_impl; [exact Hrow|].
    intros t [_ Ht].
    apply (all_chars_impl no_space not_lf); [apply no_space_not_lf | exact Ht].
Qed.

(** Reading the text of a grid gives its lines back. *)
Lemma readlines_render grid :
  Forall (Forall is_token) grid ->
  Py.readlines (render grid) = map render_line grid.
Proof.
  intros Hg. unfold Py.readlines.
  rewrite universal_newlines_id by (apply render_not_cr, Hg).
  apply lines_of_render, Hg.
Qed.

Lemma rectangular_tokens w grid :
  rectangular w grid -> Forall (Forall is_token) grid.
Proof.
  intros Hg. eapply Forall_impl; [exact Hg|]. intros row [_ H]. exact H.
Qed.

Lemma kept_rows_render w grid :
  (0 < w)%nat -> rectangular w grid ->
  kept_rows (map render_line grid) = grid.
Proof.
  intros Hw. unfold kept_rows.
  induction grid as [|row rows IH]; intros Hg; [reflexivity|].
  inversion_clear Hg as [|? ? [Hlen Hrow] Hrows]. cbn [map List.filter].
  assert (Hnb : ~ blank (render_line row))
    by (apply render_line_not_blank; [intros ->; cbn in Hlen; lia | exact Hrow]).
  apply not_blank_is_empty in Hnb. rewrite Hnb. cbn [negb map].
  rewrite tokens_of_render_line, IH by assumption. reflexivity.
Qed.

(** The row loop on the text of a rectangular grid returns the grid
    and its width. *)
Lemma parse_render w grid :
  (0 < w)%nat -> grid <> [] -> rectangular w grid ->
  parse_lines (enumerate (Py.readlines (render grid))) [] (-1)
  = inr (grid, Z.of_nat w).
Proof.
  intros Hw Hne Hg.
  rewrite readlines_render by (eapply rectangular_tokens, Hg).
  destruct grid as [|row rows]; [contradiction|].
  pose proof Hg as Hall.
  inversion_clear Hg as [|? ? [Hlen Hrow] Hrows].
  assert (Hnb : ~ blank (render_line row))
    by (apply render_line_not_blank; [intros ->; cbn in Hlen; lia | exact Hrow]).
  assert (Hcount : token_count (render_line row) = Z.of_nat w)
    by (unfold token_count; rewrite tokens_of_render_line, Hlen; auto).
  cbn [map]. unfold enumerate. cbn [enumerate_from].
  rewrite parse_lines_first, Hcount, tokens_of_render_line by assumption.
  rewrite <- (app_nil_r (map render_line rows)).
  rewrite parse_consistent.
  - rewrite (kept_rows_render w) by assumption. reflexivity.
  - lia.
  - apply Forall_map. eapply Forall_impl; [exact Hrows|].
    intros r [Hl Hr]. right. unfold token_count.
    rewrite tokens_of_render_line, Hl; auto.
Qed.

(** The importer on the text of a rectangular grid, whatever its
    size: refused at the size test. *)
Lemma import_render w0 inp out w grid :
  files w0 !! inp = Some (TextFile (render grid)) ->
  (0 < w)%nat -> grid <> [] -> rectangular w grid ->
  hex_grid_to_png inp out w0 =
  printed w0
    (TextGridError
       (ValueError (HexWrongDimension (Z.of_nat w) (Z.of_nat (length grid))))).
Proof.
  intros Hin Hw Hne Hg.
  rewrite (hex_grid_to_png_text _ _ _ _ Hin), (parse_render w) by assumption.
  rewrite readlines_render by (eapply rectangular_tokens, Hg).
  destruct grid; [contradiction | reflexivity].
Qed.

(** ** Export followed by import *)

Lemma append_nil_r (a : string) : a ++ "" = a.
Proof.
  induction a as [|x a IH]; [reflexivity|].
  rewrite append_cons, IH. reflexivity.
Qed.

Lemma export_row_acc (px : nat -> nat -> rgba) y xs : forall acc,
  fold_left (fun row x => (row ++ [rgba_to_hex (px x y)])%list) xs acc
  = (acc ++ map (fun x => rgba_to_hex (px x y)) xs)%list.
Proof.
  induction xs as [|x xs IH]; intros acc.
  - cbn. rewrite app_nil_r. reflexivity.
  - cbn [fold_left map]. rewrite IH, <- app_assoc. reflexivity.
Qed.

Lemma export_row_map px width y :
  export_row px width y = map (fun x => rgba_to_hex (px x y)) (range width).
Proof. unfold export_row. apply export_row_acc. Qed.

Lemma export_text_acc img ys : forall data,
  fold_left (fun data y => data ++ export_line img y) ys data
  = data ++ render (map (fun y => map (fun x => rgba_to_hex (pixels img x y))
                                    (range (fst (size img)))) ys).
Proof.
  induction ys as [|y ys IH]; intros data.
  - cbn. rewrite append_nil_r. reflexivity.
  - cbn [fold_left map render]. rewrite IH, append_assoc.
    unfold export_line, render_line. rewrite export_row_map. reflexivity.
Qed.

Lemma export_text_render img : export_text img = render (image_grid img).
Proof. unfold export_text, image_grid. apply export_text_acc. Qed.

Lemma digit_upper_no_space d :
  0 <= d < 16 -> no_space (Py.hex_digit_upper d) = true.
Proof.
  intros Hd. unfold no_space.
  destruct (hex_value_facts _ _ (hex_value_digit_upper d Hd))
    as (_ & _ & -> & _). reflexivity.
Qed.

(** The code of a pixel is one token. *)
Lemma rgba_to_hex_token px : channels_in_range px -> is_token (rgba_to_hex px).
Proof.
  destruct px as [[[r g] b] a]. intros Hpx.
  rewrite (rgba_to_hex_bytes _ _ _ _ Hpx).
  destruct Hpx as (Hr & Hg & Hb & Ha).
  split; [discriminate|]. unfold code_of_chars. cbn [all_chars].
  rewrite !digit_upper_no_space by (apply byte_digits; assumption).
  reflexivity.
Qed.

Lemma image_grid_rectangular img :
  (forall x y, channels_in_range (pixels img x y)) ->
  rectangular (Z.to_nat (fst (size img))) (image_grid img).
Proof.
  intros Hpx. unfold rectangular, image_grid. apply Forall_map, Forall_forall.
  intros y _. cbn beta. split.
  - rewrite length_map. unfold range. apply length_seq.
  - apply Forall_map, Forall_forall. intros x _. apply rgba_to_hex_token, Hpx.
Qed.

Lemma image_grid_length img :
  length (image_grid img) = Z.to_nat (snd (size img)).
Proof. unfold image_grid, range. rewrite length_map. apply length_seq. Qed.

Lemma valid_dimension_positive width height :
  valid_dimension width height -> 0 < width /\ 0 < height.
Proof. intros [H | [H | H]]; injection H as -> ->; lia. Qed.

(** Every image of a valid size is exported, and the text just written
    is then refused by the importer at its size test. *)
Lemma export_then_import w0 png txt out img width height :
  files w0 !! png = Some (ImageFile img) ->
  size img = (width, height) ->
  valid_dimension width height ->
  (forall x y, channels_in_range (pixels (convert_RGBA img) x y)) ->
  exists w1,
    png_to_hex_grid png txt w0 = (w1, inr tt)
    /\ files w1 !! txt = Some (TextFile (export_text (convert_RGBA img)))
    /\ hex_grid_to_png txt out w1 =
       printed w1
         (TextGridError (ValueError (HexWrongDimension width height))).
Proof.
  intros Hin Hsize Hvalid Hpx.
  rewrite (png_to_hex_grid_image _ _ _ _ Hin), Hsize.
  rewrite (proj2 (tuple_in_valid_sizes width height) Hvalid).
  eexists. split; [reflexivity|]. cbn [files].
  split; [apply lookup_insert_eq|].
  destruct (valid_dimension_positive _ _ Hvalid) as [Hw Hh].
  pose proof (image_grid_rectangular _ Hpx) as Hrect.
  pose proof (image_grid_length (convert_RGBA img)) as Hlen.
  rewrite size_convert_RGBA, Hsize in Hrect, Hlen. cbn [fst snd] in *.
  rewrite (import_render _ txt out (Z.to_nat width)
             (image_grid (convert_RGBA img))).
  - rewrite Hlen, !Z2Nat.id by lia. reflexivity.
  - cbn [files]. rewrite lookup_insert_eq, export_text_render. reflexivity.
  - lia.
  - intros E. rewrite E in Hlen. cbn in Hlen. lia.
  - exact Hrect.
Qed.

Lemma is_token_sample code :
  Py.is_empty code = false -> all_chars no_space code = true -> is_token code.
Proof. intros H1 H2. split; [intros ->; discriminate | exact H2]. Qed.

Lemma plain_grid_rectangular w h code :
  is_token code -> rectangular w (plain_grid w h code).
Proof.
  intros Ht. apply Forall_replicate. split.
  - apply length_replicate.
  - apply Forall_replicate, Ht.
Qed.

(** C1. A fully opaque 64x32 image without alpha channel is exported;
    importing the text just written does not reproduce the image: the
    import stops at its size test, prints the wrong-dimension error
    for 64x32 and writes no image. *)
Theorem export_then_import_rejected :
  exists w1,
    png_to_hex_grid "skin.png" "grid.txt"
      (image_world "skin.png" (plain_image ModeRGB 64 32 (18, 52, 171, 0)))
    = (w1, inr tt)
    /\ is_Some (files w1 !! "grid.txt")
    /\ hex_grid_to_png "grid.txt" "back.png" w1 =
       printed w1 (TextGridError (ValueError (HexWrongDimension 64 32)))
    /\ files (fst (hex_grid_to_png "grid.txt" "back.png" w1)) !! "back.png"
       = None.
Proof.
  destruct (export_then_import
              (image_world "skin.png"
                 (plain_image ModeRGB 64 32 (18, 52, 171, 0)))
              "skin.png" "grid.txt" "back.png" _ 64 32
              (image_world_lookup _ _) eq_refl)
    as (w1 & Hexp & Htxt & Himp).
  - left. reflexivity.
  - intros x y. cbn. lia.
  - exists w1. split; [exact Hexp|]. split; [eauto|]. split; [exact Himp|].
    rewrite Himp. cbn [printed fst files].
    rewrite (png_to_hex_grid_image _ _ _ _ (image_world_lookup _ _)) in Hexp.
    injection Hexp as <-. cbn [files image_world].
    rewrite lookup_insert_ne by discriminate.
    apply lookup_singleton_ne. discriminate.
Qed.

(** C7. A 64x32 grid with consistent rows whose first token
    "#ZZZZZZZZ" does not decode: the import does not go on to
    substitute transparent black; it stops at the size test, prints
    the wrong-dimension error for 64x32 and writes no image. *)
Theorem import_with_malformed_token_rejected :
  rectangular 64 malformed_grid
  /\ length malformed_grid = 32%nat
  /\ cell malformed_grid 0 0 = Some "#ZZZZZZZZ"
  /\ hex_to_rgba "#ZZZZZZZZ" = inl (ValueError (InvalidHexChars "#ZZZZZZZZ"))
  /\ hex_grid_to_png "grid.txt" "skin.png"
       (text_world "grid.txt" (render malformed_grid))
     = printed (text_world "grid.txt" (render malformed_grid))
         (TextGridError (ValueError (HexWrongDimension 64 32))).
Proof.
  assert (Ht : is_token "#000000FF") by (apply is_token_sample; reflexivity).
  assert (Hz : is_token "#ZZZZZZZZ") by (apply is_token_sample; reflexivity).
  assert (Hrect : rectangular 64 malformed_grid).
  { unfold malformed_grid. constructor.
    - split; [cbn [length]; rewrite length_replicate; reflexivity|].
      constructor; [exact Hz | apply Forall_replicate, Ht].
    - apply (plain_grid_rectangular 64 31), Ht. }
  assert (Hlen : length malformed_grid = 32%nat)
    by (unfold malformed_grid; cbn [length]; rewrite length_replicate;
        reflexivity).
  split; [exact Hrect|]. split; [exact Hlen|].
  split; [reflexivity|]. split; [reflexivity|].
  rewrite (import_render _ "grid.txt" "skin.png" 64 malformed_grid).
  - rewrite Hlen. reflexivity.
  - apply text_world_lookup.
  - lia.
  - discriminate.
  - exact Hrect.
Qed.

(** C10. A 64x32 grid of the well-formed upper-case code "#12AB00FF":
    the import prints the wrong-dimension error for 64x32 and writes
    no image, so the export that should reproduce the text finds no
    image to read and writes no text. *)
Theorem import_then_export_rejected :
  well_formed_upper "#12AB00FF" = true
  /\ hex_grid_to_png "grid.txt" "skin.png"
       (text_world "grid.txt" (render (plain_grid 64 32 "#12AB00FF")))
     = printed (text_world "grid.txt" (render (plain_grid 64 32 "#12AB00FF")))
         (TextGridError (ValueError (HexWrongDimension 64 32)))
  /\ png_to_hex_grid "skin.png" "back.txt"
       (fst (hex_grid_to_png "grid.txt" "skin.png"
               (text_world "grid.txt"
                  (render (plain_grid 64 32 "#12AB00FF")))))
     = printed
         (fst (hex_grid_to_png "grid.txt" "skin.png"
                 (text_world "grid.txt"
                    (render (plain_grid 64 32 "#12AB00FF")))))
         (InputPngNotFound "skin.png").
Proof.
  assert (Ht : is_token "#12AB00FF") by (apply is_token_sample; reflexivity).
  assert (Himp :
    hex_grid_to_png "grid.txt" "skin.png"
      (text_world "grid.txt" (render (plain_grid 64 32 "#12AB00FF")))
    = printed (text_world "grid.txt" (render (plain_grid 64 32 "#12AB00FF")))
        (TextGridError (ValueError (HexWrongDimension 64 32)))).
  { rewrite (import_render _ "grid.txt" "skin.png" 64
               (plain_grid 64 32 "#12AB00FF")).
    - unfold plain_grid. rewrite length_replicate. reflexivity.
    - apply text_world_lookup.
    - lia.
    - discriminate.
    - apply plain_grid_rectangular, Ht. }
  split; [reflexivity|]. split; [exact Himp|].
  rewrite Himp. apply png_to_hex_grid_missing.
  cbn [printed fst files text_world]. apply lookup_singleton_ne. discriminate.
Qed.

(** ** More on the colour codec *)

Lemma digit_upper_is_upper_hex d :
  0 <= d < 16 -> is_upper_hex (Py.hex_digit_upper d) = true.
Proof.
  intros Hd.
  assert (Hn : d = Z.of_nat (Z.to_nat d)) by lia.
  assert (Hlt : (Z.to_nat d < 16)%nat) by lia.
  rewrite Hn. generalize dependent (Z.to_nat d). intros n _ Hlt.
  do 16 (destruct n as [|n]; [reflexivity|]). lia.
Qed.

(** X1. The code of a pixel whose channels lie in 0..255 is always
    '#' followed by exactly 8 upper-case base-16 digits. *)
Theorem rgba_to_hex_well_formed (px : rgba) :
  channels_in_range px -> well_formed_upper (rgba_to_hex px) = true.
Proof.
  destruct px as [[[r g] b] a]. intros Hpx.
  rewrite (rgba_to_hex_bytes _ _ _ _ Hpx).
  destruct Hpx as (Hr & Hg & Hb & Ha).
  unfold well_formed_upper, code_of_chars. cbn [String.length all_chars].
  rewrite !digit_upper_is_upper_hex by (apply byte_digits; assumption).
  reflexivity.
Qed.

Lemma rgba_to_hex_well_formed_witness :
  well_formed_upper (rgba_to_hex (0, 255, 16, 9)) = true.
Proof. apply rgba_to_hex_well_formed. cbv. intuition discriminate. Defined.

Lemma string_length_append (a b : string) :
  String.length (a ++ b) = (String.length a + String.length b)%nat.
Proof.
  induction a as [|x a IH]; [reflexivity|].
  rewrite append_cons. cbn [String.length]. rewrite IH. reflexivity.
Qed.

Lemma zeros_length k : String.length (Py.zeros k) = k.
Proof. induction k as [|k IH]; [reflexivity|]. cbn. rewrite IH. reflexivity. Qed.

Lemma hex_upper_aux_grows fuel : forall n acc,
  (String.length acc <= String.length (Py.hex_upper_aux fuel n acc))%nat.
Proof.
  induction fuel as [|k IH]; intros n acc; cbn [Py.hex_upper_aux]; [lia|].
  destruct (n <? 16); [cbn [String.length]; lia|].
  etransitivity; [|apply IH]. cbn [String.length]. lia.
Qed.

Lemma hex_upper_aux_one fuel n acc :
  (S (String.length acc)
   <= String.length (Py.hex_upper_aux (S fuel) n acc))%nat.
Proof.
  cbn [Py.hex_upper_aux]. destruct (n <? 16); [cbn [String.length]; lia|].
  etransitivity; [|apply hex_upper_aux_grows]. cbn [String.length]. lia.
Qed.

Lemma hex_upper_nonempty n : (1 <= String.length (Py.hex_upper n))%nat.
Proof. unfold Py.hex_upper. apply (hex_upper_aux_one _ n ""). Qed.

Lemma hex_upper_two n : 16 <= n -> (2 <= String.length (Py.hex_upper n))%nat.
Proof.
  intros Hn. unfold Py.hex_upper.
  assert (Hlog : 4 <= Z.log2 n) by (apply Z.log2_le_pow2; [lia | simpl; lia]).
  destruct (Z.to_nat (Z.log2 n)) as [|k] eqn:Hk; [lia|].
  cbn [Py.hex_upper_aux]. replace (n <? 16) with false by lia.
  etransitivity; [|apply hex_upper_aux_one]. cbn [String.length]. lia.
Qed.

Lemma hex_upper_three n : 256 <= n -> (3 <= String.length (Py.hex_upper n))%nat.
Proof.
  intros Hn. unfold Py.hex_upper.
  assert (Hlog : 8 <= Z.log2 n) by (apply Z.log2_le_pow2; [lia | simpl; lia]).
  destruct (Z.to_nat (Z.log2 n)) as [|[|k]] eqn:Hk; [lia | lia |].
  assert (Hq : 16 <= n / 16) by (apply Z.div_le_lower_bound; lia).
  cbn [Py.hex_upper_aux]. replace (n <? 16) with false by lia.
  replace (n / 16 <? 16) with false by lia.
  etransitivity; [|apply hex_upper_aux_one]. cbn [String.length]. lia.
Qed.

Lemma format_02X_length n : (2 <= String.length (Py.format_02X n))%nat.
Proof.
  unfold Py.format_02X. pose proof (hex_upper_nonempty (Z.abs n)).
  destruct (n <? 0); rewrite !string_length_append, zeros_length;
    cbn [String.length]; lia.
Qed.

Lemma format_02X_long n :
  ~ codec_channel n -> (3 <= String.length (Py.format_02X n))%nat.
Proof.
  unfold codec_channel, Py.format_02X. intros Hn.
  destruct (Z.ltb_spec n 0) as [Hneg | Hpos];
    rewrite !string_length_append, zeros_length; cbn [String.length].
  - pose proof (hex_upper_two (Z.abs n)). lia.
  - pose proof (hex_upper_three (Z.abs n)). lia.
Qed.

Lemma format_02X_negative n :
  -15 <= n <= -1 ->
  Py.format_02X n = pair_of_chars "-" (Py.hex_digit_upper (- n)).
Proof.
  intros Hn. unfold Py.format_02X, Py.hex_upper.
  replace (n <? 0) with true by lia.
  rewrite Z.abs_neq by lia. cbn [Py.hex_upper_aux].
  replace (- n <? 16) with true by lia.
  rewrite Z.mod_small by lia. reflexivity.
Qed.

(** On a channel in -15..255 the format gives two characters that
    [int(., 16)] reads back. *)
Lemma format_02X_codec n :
  codec_channel n ->
  exists c1 c2,
    Py.format_02X n = pair_of_chars c1 c2
    /\ Py.int16 (pair_of_chars c1 c2) = Some n.
Proof.
  unfold codec_channel. intros Hn.
  destruct (Z.ltb_spec n 0) as [Hneg | Hpos].
  - do 2 eexists. split; [apply format_02X_negative; lia|].
    rewrite int16_pair. unfold int16_pair_spec.
    rewrite hex_value_digit_upper by lia.
    change (Py.hex_value "-") with (@None Z). cbv iota.
    change (Ascii.eqb "-" "-") with true. cbv iota. f_equal. lia.
  - do 2 eexists. split; [apply format_02X_byte; lia|].
    unfold pair_of_chars. rewrite <- format_02X_byte by lia.
    apply int16_format_02X. lia.
Qed.

Lemma rgba_to_hex_length r g b a :
  String.length (rgba_to_hex (r, g, b, a))
  = (1 + String.length (Py.format_02X r) + String.length (Py.format_02X g)
     + String.length (Py.format_02X b) + String.length (Py.format_02X a))%nat.
Proof.
  unfold rgba_to_hex. rewrite !string_length_append. cbn [String.length]. lia.
Qed.

(** X2. The codec is lossless exactly on channels in -15..255: there
    decoding the code of a pixel returns the pixel, and as soon as one
    channel lies outside, the code has more than 9 characters and
    decoding it fails with the format error. *)
Theorem codec_round_trip_range (r g b a : Z) :
  (codec_pixel (r, g, b, a) ->
   hex_to_rgba (rgba_to_hex (r, g, b, a)) = inr (r, g, b, a))
  /\ (~ codec_pixel (r, g, b, a) ->
      hex_to_rgba (rgba_to_hex (r, g, b, a))
      = inl (ValueError (InvalidHexFormat (rgba_to_hex (r, g, b, a))))).
Proof.
  split.
  - intros (Hr & Hg & Hb & Ha).
    destruct (format_02X_codec r Hr) as (r1 & r2 & Er & Ir).
    destruct (format_02X_codec g Hg) as (g1 & g2 & Eg & Ig).
    destruct (format_02X_codec b Hb) as (b1 & b2 & Eb & Ib).
    destruct (format_02X_codec a Ha) as (a1 & a2 & Ea & Ia).
    unfold rgba_to_hex. rewrite Er, Eg, Eb, Ea.
    change (hex_to_rgba (code_of_chars r1 r2 g1 g2 b1 b2 a1 a2) = inr (r, g, b, a)).
    rewrite hex_to_rgba_code, Ir, Ig, Ib, Ia. reflexivity.
  - intros Hout. apply hex_to_rgba_format. right. unfold Py.len.
    rewrite rgba_to_hex_length.
    pose proof (format_02X_length r). pose proof (format_02X_length g).
    pose proof (format_02X_length b). pose proof (format_02X_length a).
    assert (Hsome : ~ codec_channel r \/ ~ codec_channel g
                    \/ ~ codec_channel b \/ ~ codec_channel a)
      by (unfold codec_pixel, codec_channel in *; lia).
    destruct Hsome as [H' | [H' | [H' | H']]];
      apply format_02X_long in H'; lia.
Qed.

Lemma codec_round_trip_range_witness :
  hex_to_rgba (rgba_to_hex (-15, 0, 255, -1)) = inr (-15, 0, 255, -1)
  /\ hex_to_rgba (rgba_to_hex (256, 0, 0, 0))
     = inl (ValueError (InvalidHexFormat (rgba_to_hex (256, 0, 0, 0)))).
Proof.
  split.
  - apply (proj1 (codec_round_trip_range (-15) 0 255 (-1))).
    unfold codec_pixel, codec_channel. lia.
  - apply (proj2 (codec_round_trip_range 256 0 0 0)).
    unfold codec_pixel, codec_channel. lia.
Defined.

Lemma hex_char_upper c :
  is_hex c = true ->
  exists d, Py.hex_value c = Some d /\ Py.hex_digit_upper d = upper_hex_char c.
Proof.
  ascii_cases c; vm_compute; intros H; try discriminate H;
    eexists; split; reflexivity.
Qed.

Lemma any_case_pair c1 c2 :
  is_hex c1 = true -> is_hex c2 = true ->
  exists n, 0 <= n <= 255
    /\ Py.int16 (pair_of_chars c1 c2) = Some n
    /\ Py.hex_digit_upper (n / 16) = upper_hex_char c1
    /\ Py.hex_digit_upper (n mod 16) = upper_hex_char c2.
Proof.
  intros U1 U2.
  destruct (hex_char_upper _ U1) as (d1 & H1 & E1).
  destruct (hex_char_upper _ U2) as (d2 & H2 & E2).
  destruct (hex_value_facts _ _ H1) as [R1 _].
  destruct (hex_value_facts _ _ H2) as [R2 _].
  exists (16 * d1 + d2).
  assert (Hq : (16 * d1 + d2) / 16 = d1)
    by (symmetry; apply (Z.div_unique _ 16 d1 d2); lia).
  assert (Hr : (16 * d1 + d2) mod 16 = d2)
    by (symmetry; apply (Z.mod_unique _ 16 d1 d2); lia).
  rewrite Hq, Hr. repeat split; try lia; try assumption.
  apply int16_hex_pair; assumption.
Qed.

Lemma well_formed_any_case_shape code :
  well_formed_any_case code = true ->
  exists c1 c2 c3 c4 c5 c6 c7 c8,
    code = code_of_chars c1 c2 c3 c4 c5 c6 c7 c8
    /\ Forall (fun c => is_hex c = true) [c1; c2; c3; c4; c5; c6; c7; c8].
Proof.
  destruct code as [|c digits]; [discriminate|].
  unfold well_formed_any_case.
  rewrite !andb_true_iff, Ascii.eqb_eq, Nat.eqb_eq.
  intros [[-> Hlen] Hall].
  do 8 (destruct digits as [|? digits]; [discriminate Hlen|]).
  destruct digits; [|discriminate Hlen].
  cbn [all_chars] in Hall. rewrite !andb_true_iff in Hall.
  do 8 eexists. split; [reflexivity|].
  repeat constructor; tauto.
Qed.

(** A code in either case decodes to a pixel of bytes whose code is
    the same digits in upper case. *)
Lemma decode_any_case code :
  well_formed_any_case code = true ->
  exists px,
    hex_to_rgba code = inr px /\ channels_in_range px
    /\ rgba_to_hex px = map_chars upper_hex_char code.
Proof.
  intros Hwf.
  destruct (well_formed_any_case_shape _ Hwf)
    as (c1 & c2 & c3 & c4 & c5 & c6 & c7 & c8 & -> & Hup).
  repeat match goal with H : Forall _ (_ :: _) |- _ => inversion_clear H end.
  destruct (any_case_pair c1 c2) as (r & Hr & Ir & Er1 & Er2); try done.
  destruct (any_case_pair c3 c4) as (g & Hg & Ig & Eg1 & Eg2); try done.
  destruct (any_case_pair c5 c6) as (b & Hb & Ib & Eb1 & Eb2); try done.
  destruct (any_case_pair c7 c8) as (a & Ha & Ia & Ea1 & Ea2); try done.
  exists (r, g, b, a). split; [|split].
  - rewrite hex_to_rgba_code, Ir, Ig, Ib, Ia. reflexivity.
  - repeat split; lia.
  - rewrite rgba_to_hex_bytes by (repeat split; lia).
    rewrite Er1, Er2, Eg1, Eg2, Eb1, Eb2, Ea1, Ea2. reflexivity.
Qed.

(** X3. Reading is case-insensitive and writing is upper-case: a code
    of '#' and 8 base-16 digits of either case decodes to channels in
    0..255, and encoding them gives the code with its letters in upper
    case. *)
Theorem hex_to_rgba_any_case (code : string) :
  well_formed_any_case code = true ->
  exists px,
    hex_to_rgba code = inr px /\ channels_in_range px
    /\ rgba_to_hex px = map_chars upper_hex_char code.
Proof. apply decode_any_case. Qed.

Lemma hex_to_rgba_any_case_witness :
  exists px,
    hex_to_rgba "#12abCd0f" = inr px /\ channels_in_range px
    /\ rgba_to_hex px = map_chars upper_hex_char "#12abCd0f".
Proof. apply hex_to_rgba_any_case. reflexivity. Defined.

Lemma startswith_hash_shape s :
  Py.startswith "#" s = true -> Py.len s = 9 ->
  exists c1 c2 c3 c4 c5 c6 c7 c8, s = code_of_chars c1 c2 c3 c4 c5 c6 c7 c8.
Proof.
  unfold Py.startswith, Py.len. intros Hp Hlen.
  destruct s as [|c s]; [discriminate Hp|].
  cbn [String.prefix] in Hp. destruct (ascii_dec "#" c) as [<- |]; [|discriminate Hp].
  do 8 (destruct s as [|? s]; [discriminate Hlen|]).
  destruct s; [|cbn [String.length] in Hlen; lia].
  do 8 eexists. reflexivity.
Qed.

Lemma int16_pair_bounds c1 c2 n :
  Py.int16 (pair_of_chars c1 c2) = Some n -> codec_channel n.
Proof.
  rewrite int16_pair. unfold int16_pair_spec, codec_channel.
  destruct (Py.hex_value c1) as [d1|] eqn:H1;
    destruct (Py.hex_value c2) as [d2|] eqn:H2;
    try (apply hex_value_facts in H1 as [R1 _]);
    try (apply hex_value_facts in H2 as [R2 _]).
  - intros [= <-]. lia.
  - destruct (Py.int_space c2); intros [= <-]. lia.
  - destruct (Ascii.eqb c1 "-"); [intros [= <-]; lia|].
    destruct (_ || _); intros [= <-]. lia.
  - discriminate.
Qed.

(** X4. Whatever string [hex_to_rgba] accepts starts with '#', has 9
    characters, and every channel it returns lies in -15..255; no
    larger and no smaller value ever reaches the image. *)
Theorem hex_to_rgba_channel_bounds (hex_code : string) (px : rgba) :
  hex_to_rgba hex_code = inr px ->
  Py.startswith "#" hex_code = true /\ Py.len hex_code = 9 /\ codec_pixel px.
Proof.
  intros Hok.
  assert (Hfmt : Py.startswith "#" hex_code = true /\ Py.len hex_code = 9).
  { unfold hex_to_rgba in Hok.
    destruct (Py.startswith "#" hex_code); [|discriminate Hok].
    destruct (Z.eqb_spec (Py.len hex_code) 9); [auto | discriminate Hok]. }
  destruct Hfmt as [Hs Hl]. split; [exact Hs|]. split; [exact Hl|].
  destruct (startswith_hash_shape _ Hs Hl)
    as (c1 & c2 & c3 & c4 & c5 & c6 & c7 & c8 & ->).
  rewrite hex_to_rgba_code in Hok.
  destruct (Py.int16 (pair_of_chars c1 c2)) as [r|] eqn:Ir; [|discriminate Hok].
  destruct (Py.int16 (pair_of_chars c3 c4)) as [g|] eqn:Ig; [|discriminate Hok].
  destruct (Py.int16 (pair_of_chars c5 c6)) as [b|] eqn:Ib; [|discriminate Hok].
  destruct (Py.int16 (pair_of_chars c7 c8)) as [a|] eqn:Ia; [|discriminate Hok].
  injection Hok as <-.
  repeat split; eapply int16_pair_bounds; eassumption.
Qed.

Lemma hex_to_rgba_channel_bounds_witness :
  Py.startswith "#" "#-F00fF+1" = true /\ Py.len "#-F00fF+1" = 9
  /\ codec_pixel (-15, 0, 255, 1).
Proof. apply (hex_to_rgba_channel_bounds "#-F00fF+1"). reflexivity. Defined.

(** ** More on the importer *)

Lemma split_tokens s : Forall is_token (Py.split s).
Proof.
  induction s as [|c s IH]; [constructor|]. cbn [Py.split].
  destruct (Py.isspace c) eqn:E; [exact IH|].
  assert (Hc : is_token (String c EmptyString))
    by (split; [discriminate | cbn; unfold no_space; rewrite E; reflexivity]).
  destruct (Py.starts_token s); [|constructor; assumption].
  destruct (Py.split s) as [|t ts]; [repeat constructor; apply Hc|].
  inversion_clear IH as [|? ? [_ Ht] Hts]. constructor; [|exact Hts].
  split; [discriminate|]. cbn [all_chars]. unfold no_space at 1.
  rewrite E, Ht. reflexivity.
Qed.

Lemma not_blank_count line : ~ blank line -> 1 <= token_count line.
Proof.
  intros Hnb. unfold token_count, tokens_of. rewrite split_strip.
  destruct (Py.split line) eqn:E; [|cbn [length]; lia].
  exfalso. apply Hnb, blank_iff_split, E.
Qed.

Lemma kept_rows_blank l lines : blank l -> kept_rows (l :: lines) = kept_rows lines.
Proof.
  intros H%blank_is_empty. unfold kept_rows. cbn [List.filter].
  rewrite H. reflexivity.
Qed.

Lemma kept_rows_kept l lines :
  ~ blank l -> kept_rows (l :: lines) = tokens_of l :: kept_rows lines.
Proof.
  intros H%not_blank_is_empty. unfold kept_rows. cbn [List.filter].
  rewrite H. reflexivity.
Qed.

Lemma parse_ok_set lines : forall i g w grid w',
  w <> -1 ->
  parse_lines (enumerate_from i lines) g w = inr (grid, w') ->
  w' = w /\ grid = (g ++ kept_rows lines)%list
  /\ Forall (fun row => Z.of_nat (length row) = w) (kept_rows lines).
Proof.
  induction lines as [|l lines IH]; intros i g w grid w' Hw; cbn [enumerate_from].
  - cbn. intros [= <- <-]. rewrite app_nil_r. repeat split. constructor.
  - destruct (Py.is_empty (Py.strip l)) eqn:E.
    + assert (Hb : blank l) by (apply blank_is_empty; exact E).
      rewrite parse_lines_blank, kept_rows_blank by assumption. apply IH, Hw.
    + assert (Hnb : ~ blank l) by (apply not_blank_is_empty; exact E).
      rewrite parse_lines_next, kept_rows_kept by assumption.
      destruct (Z.eqb_spec (token_count l) w) as [Hl | Hl]; [|discriminate].
      intros Hp. destruct (IH _ _ _ _ _ Hw Hp) as (-> & -> & Hall).
      split; [reflexivity|]. split.
      * rewrite <- app_assoc. reflexivity.
      * constructor; [exact Hl | exact Hall].
Qed.

Lemma parse_ok_unset lines : forall i g grid w',
  parse_lines (enumerate_from i lines) g (-1) = inr (grid, w') ->
  grid = (g ++ kept_rows lines)%list
  /\ Forall (fun row => Z.of_nat (length row) = w') (kept_rows lines)
  /\ (kept_rows lines = [] -> w' = -1)
  /\ (kept_rows lines <> [] -> 1 <= w').
Proof.
  induction lines as [|l lines IH]; intros i g grid w'; cbn [enumerate_from].
  - cbn. intros [= <- <-]. rewrite app_nil_r.
    repeat split; [constructor | contradiction].
  - destruct (Py.is_empty (Py.strip l)) eqn:E.
    + assert (Hb : blank l) by (apply blank_is_empty; exact E).
      rewrite parse_lines_blank, kept_rows_blank by assumption. apply IH.
    + assert (Hnb : ~ blank l) by (apply not_blank_is_empty; exact E).
      rewrite parse_lines_first, kept_rows_kept by assumption.
      intros Hp.
      destruct (parse_ok_set _ _ _ _ _ _ (token_count_nonneg l) Hp)
        as (-> & -> & Hall).
      split; [rewrite <- app_assoc; reflexivity|].
      split; [constructor; [reflexivity | exact Hall]|].
      split; [discriminate|]. intros _. apply not_blank_count, Hnb.
Qed.

Lemma kept_rows_tokens lines : Forall (Forall is_token) (kept_rows lines).
Proof.
  unfold kept_rows. apply Forall_map, Forall_forall. intros l _.
  apply split_tokens.
Qed.

(** X9. When the row loop succeeds, the grid it returns is made of the
    tokens of the non-blank lines, in order, and is rectangular: every
    row has exactly the returned width, every token is a non-empty
    string without whitespace; the width is at least 1, except for a
    text without any non-blank line, where the grid is empty and the
    width is left at -1. *)
Theorem parse_lines_rectangular lines grid_data width :
  parse_lines (enumerate lines) [] (-1) = inr (grid_data, width) ->
  grid_data = kept_rows lines
  /\ Forall (fun row => Z.of_nat (length row) = width /\ Forall is_token row)
       grid_data
  /\ (grid_data = [] -> width = -1)
  /\ (grid_data <> [] -> 1 <= width).
Proof.
  intros Hp. destruct (parse_ok_unset _ _ _ _ _ Hp) as (-> & Hall & H0 & H1).
  cbn [app]. split; [reflexivity|]. split; [|split; assumption].
  apply Forall_and. split; [exact Hall | apply kept_rows_tokens].
Qed.

Lemma parse_lines_rectangular_witness :
  [["#000000FF"; "#000000FF"]; ["#000000FF"; "#000000FF"]]
  = kept_rows [line_of 2 "#000000FF"; Py.newline; line_of 2 "#000000FF"]
  /\ Forall (fun row => Z.of_nat (length row) = 2 /\ Forall is_token row)
       [["#000000FF"; "#000000FF"]; ["#000000FF"; "#000000FF"]]
  /\ ([["#000000FF"; "#000000FF"]; ["#000000FF"; "#000000FF"]] = [] -> 2 = -1)
  /\ ([["#000000FF"; "#000000FF"]; ["#000000FF"; "#000000FF"]] <> [] -> 1 <= 2).
Proof. apply parse_lines_rectangular. vm_compute. reflexivity. Defined.

Lemma parse_err_set lines : forall i g w e,
  w <> -1 ->
  parse_lines (enumerate_from i lines) g w = inl e ->
  exists mid bad post,
    lines = (mid ++ bad :: post)%list
    /\ Forall (fun l => blank l \/ token_count l = w) mid
    /\ ~ blank bad /\ token_count bad <> w
    /\ e = ValueError
             (InconsistentRowLength (Z.of_nat (i + length mid) + 1) w
                (token_count bad)).
Proof.
  induction lines as [|l lines IH]; intros i g w e Hw; cbn [enumerate_from];
    [discriminate|].
  destruct (Py.is_empty (Py.strip l)) eqn:E.
  - assert (Hb : blank l) by (apply blank_is_empty; exact E).
    rewrite parse_lines_blank by assumption. intros Hp.
    destruct (IH _ _ _ _ Hw Hp) as (mid & bad & post & -> & Hmid & ? & ? & ->).
    exists (l :: mid), bad, post. cbn [length].
    repeat split; try assumption; [constructor; auto|].
    do 3 f_equal. lia.
  - assert (Hnb : ~ blank l) by (apply not_blank_is_empty; exact E).
    rewrite parse_lines_next by assumption.
    destruct (Z.eqb_spec (token_count l) w) as [Hl | Hl].
    + intros Hp.
      destruct (IH _ _ _ _ Hw Hp) as (mid & bad & post & -> & Hmid & ? & ? & ->).
      exists (l :: mid), bad, post. cbn [length].
      repeat split; try assumption; [constructor; auto|].
      do 3 f_equal. lia.
    + intros [= <-]. exists [], l, lines. cbn [length app].
      repeat split; try assumption; [constructor|].
      do 3 f_equal. lia.
Qed.

Lemma parse_err_unset lines : forall i g e,
  parse_lines (enumerate_from i lines) g (-1) = inl e ->
  exists pre first mid bad post,
    lines = (pre ++ first :: mid ++ bad :: post)%list
    /\ Forall blank pre /\ ~ blank first
    /\ Forall (fun l => blank l \/ token_count l = token_count first) mid
    /\ ~ blank bad /\ token_count bad <> token_count first
    /\ e = ValueError
             (InconsistentRowLength
                (Z.of_nat (i + length pre + 1 + length mid) + 1)
                (token_count first) (token_count bad)).
Proof.
  induction lines as [|l lines IH]; intros i g e; cbn [enumerate_from];
    [discriminate|].
  destruct (Py.is_empty (Py.strip l)) eqn:E.
  - assert (Hb : blank l) by (apply blank_is_empty; exact E).
    rewrite parse_lines_blank by assumption. intros Hp.
    destruct (IH _ _ _ Hp)
      as (pre & first & mid & bad & post & -> & Hpre & ? & ? & ? & ? & ->).
    exists (l :: pre), first, mid, bad, post. cbn [length].
    repeat split; try assumption; [constructor; auto|].
    do 3 f_equal. lia.
  - assert (Hnb : ~ blank l) by (apply not_blank_is_empty; exact E).
    rewrite parse_lines_first by assumption. intros Hp.
    destruct (parse_err_set _ _ _ _ _ (token_count_nonneg l) Hp)
      as (mid & bad & post & -> & Hmid & ? & ? & ->).
    exists [], l, mid, bad, post. cbn [length app].
    repeat split; try assumption; [constructor|].
    do 3 f_equal. lia.
Qed.

(** X10. The row loop fails only on a genuine mismatch: when it
    raises, the text has a first non-blank line and, after it, a
    non-blank line with another number of tokens, every line in
    between being blank or of the expected width; the error carries
    the number of that line in the file, the token count of the first
    non-blank line and the token count found. *)
Theorem parse_lines_error_sound lines e :
  parse_lines (enumerate lines) [] (-1) = inl e ->
  exists pre first mid bad post,
    lines = (pre ++ first :: mid ++ bad :: post)%list
    /\ Forall blank pre /\ ~ blank first
    /\ Forall (fun l => blank l \/ token_count l = token_count first) mid
    /\ ~ blank bad /\ token_count bad <> token_count first
    /\ e = ValueError
             (InconsistentRowLength
                (Z.of_nat (length pre + 1 + length mid) + 1)
                (token_count first) (token_count bad)).
Proof. intros Hp. apply (parse_err_unset lines 0 [] e Hp). Qed.

Lemma parse_lines_error_sound_witness :
  exists pre first mid bad post,
    [Py.newline; line_of 2 "#000000FF"; line_of 3 "#000000FF"]
    = (pre ++ first :: mid ++ bad :: post)%list
    /\ Forall blank pre /\ ~ blank first
    /\ Forall (fun l => blank l \/ token_count l = token_count first) mid
    /\ ~ blank bad /\ token_count bad <> token_count first
    /\ ValueError (InconsistentRowLength 3 2 3)
       = ValueError
           (InconsistentRowLength
              (Z.of_nat (length pre + 1 + length mid) + 1)
              (token_count first) (token_count bad)).
Proof. apply parse_lines_error_sound. vm_compute. reflexivity. Defined.


(** ** More on the exporter *)

Lemma png_to_hex_grid_text w0 inp out data :
  files w0 !! inp = Some (TextFile data) ->
  png_to_hex_grid inp out w0
  = printed w0 (PngToTextError UnidentifiedImageError).
Proof.
  intros Hin.
  unfold png_to_hex_grid, mbind, M_bind, os_path_exists, try_except,
    Image_open.
  cbv beta. rewrite Hin, bool_decide_eq_true_2 by eauto.
  cbv beta iota delta [negb]. rewrite Hin. reflexivity.
Qed.

Lemma convert_RGBA_id img : mode img = ModeRGBA -> convert_RGBA img = img.
Proof. intros H. unfold convert_RGBA. rewrite H. reflexivity. Qed.

(** The exporter reports success only after the size test has let the
    image through. *)
Lemma export_success_valid w0 inp out img width height :
  files w0 !! inp = Some (ImageFile img) ->
  size img = (width, height) ->
  stdout (fst (png_to_hex_grid inp out w0))
  = (stdout w0 ++ [ImageLoaded inp width height; HexGridWritten out])%list ->
  valid_dimension width height.
Proof.
  intros Hin Hsize. rewrite (png_to_hex_grid_image _ _ _ _ Hin), Hsize.
  destruct (Py.py_in _ _) eqn:E; [intros _; apply tuple_in_valid_sizes, E|].
  cbn [printed fst stdout]. intros H%app_inv_head. discriminate H.
Qed.

(** X5. When the exporter, run on an image in mode RGBA, reports
    success (it has printed the loaded and the written message), the
    size of the image is one of the three, the run has returned
    normally, and the output path holds, in place of whatever it held
    before, one line per row from top to bottom, each made of the
    codes of the row's pixels from left to right joined by single
    spaces and ended by a newline. *)
Theorem export_writes_grid w0 inp out img width height :
  files w0 !! inp = Some (ImageFile img) ->
  mode img = ModeRGBA ->
  size img = (width, height) ->
  stdout (fst (png_to_hex_grid inp out w0))
  = (stdout w0 ++ [ImageLoaded inp width height; HexGridWritten out])%list ->
  valid_dimension width height
  /\ png_to_hex_grid inp out w0 =
     (World (<[out := TextFile (render (image_grid img))]> (files w0))
        (stdout w0 ++ [ImageLoaded inp width height; HexGridWritten out]),
      inr tt).
Proof.
  intros Hin Hmode Hsize Hdone.
  pose proof (export_success_valid _ _ _ _ _ _ Hin Hsize Hdone) as Hvalid.
  split; [exact Hvalid|].
  rewrite (png_to_hex_grid_image _ _ _ _ Hin), Hsize.
  rewrite (proj2 (tuple_in_valid_sizes width height) Hvalid).
  rewrite export_text_render, (convert_RGBA_id _ Hmode). reflexivity.
Qed.

Lemma export_writes_grid_witness :
  valid_dimension 64 64
  /\ png_to_hex_grid "skin.png" "grid.txt"
       (image_world "skin.png" (plain_image ModeRGBA 64 64 (1, 2, 3, 4)))
     = (World
          (<["grid.txt" :=
               TextFile
                 (render (image_grid (plain_image ModeRGBA 64 64 (1, 2, 3, 4))))]>
             (files
                (image_world "skin.png"
                   (plain_image ModeRGBA 64 64 (1, 2, 3, 4)))))
          (stdout
             (image_world "skin.png" (plain_image ModeRGBA 64 64 (1, 2, 3, 4)))
           ++ [ImageLoaded "skin.png" 64 64; HexGridWritten "grid.txt"]),
        inr tt).
Proof.
  apply export_writes_grid.
  - reflexivity.
  - reflexivity.
  - reflexivity.
  - vm_compute. reflexivity.
Defined.

Lemma lookup_map {A B} (f : A -> B) (l : list A) (i : nat) :
  map f l !! i = option_map f (l !! i).
Proof.
  revert i. induction l as [|a l IH]; intros [|i]; cbn; try reflexivity.
  apply IH.
Qed.

(** The grid of an image holds at column [x] of row [y] the code of
    the pixel at [(x, y)]. *)
Lemma cell_image_grid img x y :
  (x < Z.to_nat (fst (size img)))%nat ->
  (y < Z.to_nat (snd (size img)))%nat ->
  cell (image_grid img) x y = Some (rgba_to_hex (pixels img x y)).
Proof.
  intros Hx Hy. unfold cell, image_grid, range.
  rewrite lookup_map, lookup_seq_lt by assumption. cbn [option_map mbind option_bind].
  rewrite lookup_map, lookup_seq_lt by assumption. reflexivity.
Qed.

(** X6. When the exporter, run on an image in mode RGBA with channels
    in 0..255, reports success, the text at the output path is one the
    importer's row loop accepts: it has as many lines as the image has
    rows, the loop returns the image's width and a grid with one row
    per image row, and the token at column x of row y is the code of
    the pixel at (x, y). *)
Theorem exported_text_parses w0 inp out img width height :
  files w0 !! inp = Some (ImageFile img) ->
  mode img = ModeRGBA ->
  size img = (width, height) ->
  (forall x y, channels_in_range (pixels img x y)) ->
  stdout (fst (png_to_hex_grid inp out w0))
  = (stdout w0 ++ [ImageLoaded inp width height; HexGridWritten out])%list ->
  exists data grid_data,
    files (fst (png_to_hex_grid inp out w0)) !! out = Some (TextFile data)
    /\ length (Py.readlines data) = Z.to_nat height
    /\ parse_lines (enumerate (Py.readlines data)) [] (-1)
       = inr (grid_data, width)
    /\ Z.of_nat (length grid_data) = height
    /\ forall x y,
         (x < Z.to_nat width)%nat -> (y < Z.to_nat height)%nat ->
         cell grid_data x y = Some (rgba_to_hex (pixels img x y)).
Proof.
  intros Hin Hmode Hsize Hpx Hdone.
  pose proof (export_success_valid _ _ _ _ _ _ Hin Hsize Hdone) as Hvalid.
  rewrite (png_to_hex_grid_image _ _ _ _ Hin), Hsize.
  rewrite (proj2 (tuple_in_valid_sizes width height) Hvalid).
  rewrite (convert_RGBA_id _ Hmode).
  destruct (valid_dimension_positive _ _ Hvalid) as [Hw Hh].
  pose proof (image_grid_rectangular _ Hpx) as Hrect.
  pose proof (image_grid_length img) as Hlen.
  rewrite Hsize in Hrect, Hlen. cbn [fst snd] in *.
  exists (export_text img), (image_grid img).
  cbn [fst files]. split; [apply lookup_insert_eq|].
  rewrite export_text_render.
  split; [|split; [|split]].
  - rewrite readlines_render by (eapply rectangular_tokens, Hrect).
    rewrite length_map. exact Hlen.
  - rewrite (parse_render (Z.to_nat width)); [rewrite Z2Nat.id by lia; reflexivity
      | lia | | exact Hrect].
    intros E. rewrite E in Hlen. cbn in Hlen. lia.
  - rewrite Hlen. lia.
  - intros x y Hx Hy. apply cell_image_grid; rewrite Hsize; assumption.
Qed.

Lemma exported_text_parses_witness :
  exists data grid_data,
    files
      (fst (png_to_hex_grid "skin.png" "grid.txt"
              (image_world "skin.png"
                 (plain_image ModeRGBA 64 32 (1, 2, 3, 4)))))
      !! "grid.txt" = Some (TextFile data)
    /\ length (Py.readlines data) = Z.to_nat 32
    /\ parse_lines (enumerate (Py.readlines data)) [] (-1)
       = inr (grid_data, 64)
    /\ Z.of_nat (length grid_data) = 32
    /\ forall x y,
         (x < Z.to_nat 64)%nat -> (y < Z.to_nat 32)%nat ->
         cell grid_data x y
         = Some
             (rgba_to_hex
                (pixels (plain_image ModeRGBA 64 32 (1, 2, 3, 4)) x y)).
Proof.
  apply exported_text_parses with (img := plain_image ModeRGBA 64 32 (1, 2, 3, 4)).
  - reflexivity.
  - reflexivity.
  - reflexivity.
  - intros x y. cbn. lia.
  - vm_compute. reflexivity.
Defined.

(** X7. The exporter touches no path but its output path, and it
    changes the output path only when the input is an image of one of
    the three sizes: on a missing input, on a text file and on an
    image of another size all files are left as they were. *)
Theorem exporter_frame w0 inp out :
  (forall p, p <> out ->
     files (fst (png_to_hex_grid inp out w0)) !! p = files w0 !! p)
  /\ ((forall img, files w0 !! inp = Some (ImageFile img) ->
         ~ valid_dimension (fst (size img)) (snd (size img))) ->
      files (fst (png_to_hex_grid inp out w0)) = files w0).
Proof.
  destruct (files w0 !! inp) as [[data | img]|] eqn:Hin.
  - rewrite (png_to_hex_grid_text _ _ _ _ Hin). split; reflexivity.
  - rewrite (png_to_hex_grid_image _ _ _ _ Hin).
    destruct (size img) as [width height] eqn:Hsize.
    destruct (Py.py_in _ _) eqn:E; [|split; reflexivity].
    apply tuple_in_valid_sizes in E. cbn [fst files]. split.
    + intros p Hp. apply lookup_insert_ne. congruence.
    + intros Hbad. exfalso. apply (Hbad img eq_refl).
      rewrite Hsize. exact E.
  - rewrite (png_to_hex_grid_missing _ _ _ Hin). split; reflexivity.
Qed.

Lemma exporter_frame_witness :
  files
    (fst (png_to_hex_grid "skin.png" "grid.txt"
            (image_world "skin.png" (plain_image ModeRGBA 64 32 (1, 2, 3, 4)))))
    !! "skin.png"
  = files (image_world "skin.png" (plain_image ModeRGBA 64 32 (1, 2, 3, 4)))
      !! "skin.png"
  /\ files
       (fst (png_to_hex_grid "skin.png" "grid.txt"
               (image_world "skin.png"
                  (plain_image ModeRGBA 10 10 (1, 2, 3, 4)))))
     = files (image_world "skin.png" (plain_image ModeRGBA 10 10 (1, 2, 3, 4))).
Proof.
  split.
  - apply (proj1 (exporter_frame _ "skin.png" "grid.txt")). discriminate.
  - apply (proj2 (exporter_frame _ "skin.png" "grid.txt")).
    intros img [= <-]. cbn. unfold valid_dimension.
    intros [H | [H | H]]; discriminate H.
Defined.

(** ** More on the pixel loop *)

Lemma decode_encode_bytes px :
  channels_in_range px -> hex_to_rgba (rgba_to_hex px) = inr px.
Proof.
  destruct px as [[[r g] b] a]. intros Hpx.
  rewrite (rgba_to_hex_bytes _ _ _ _ Hpx), hex_to_rgba_code.
  destruct Hpx as (Hr & Hg & Hb & Ha). unfold pair_of_chars.
  rewrite <- !format_02X_byte, !int16_format_02X by assumption.
  reflexivity.
Qed.

Lemma flat_map_nil {A B} (f : A -> list B) (l : list A) :
  (forall x, x ∈ l -> f x = []) -> flat_map f l = [].
Proof.
  induction l as [|a l IH]; intros H; [reflexivity|].
  cbn [flat_map]. rewrite (H a) by left. apply IH.
  intros x Hx. apply H. right. exact Hx.
Qed.

(** No position inside the image prints anything when every cell is
    there and decodes. *)
Lemma warnings_nil grid_data width height :
  (forall x y, (x < Z.to_nat width)%nat -> (y < Z.to_nat height)%nat ->
     exists hex_code px,
       cell grid_data x y = Some hex_code /\ hex_to_rgba hex_code = inr px) ->
  warnings grid_data (range width) (range height) = [].
Proof.
  intros Hok. unfold warnings.
  apply flat_map_nil. intros y Hy%elem_of_range.
  apply flat_map_nil. intros x Hx%elem_of_range.
  destruct (Hok x y Hx Hy) as (hex_code & px & Hc & Hd).
  unfold cell_warning. rewrite Hc, Hd. reflexivity.
Qed.

Lemma populate_quiet grid_data width height px w :
  warnings grid_data (range width) (range height) = [] ->
  populate grid_data width height px w
  = (w, inr (fill grid_data (range width) (range height) px)).
Proof.
  intros Hq. rewrite populate_run, Hq, app_nil_r, world_eta. reflexivity.
Qed.

Lemma fill_inside grid_data width height px x y :
  (x < Z.to_nat width)%nat -> (y < Z.to_nat height)%nat ->
  fill grid_data (range width) (range height) px x y
  = cell_pixel grid_data x y.
Proof.
  intros Hx Hy.
  rewrite fill_at, !bool_decide_eq_true_2 by (apply elem_of_range; assumption).
  reflexivity.
Qed.

Lemma fill_outside grid_data width height px x y :
  ~ ((x < Z.to_nat width)%nat /\ (y < Z.to_nat height)%nat) ->
  fill grid_data (range width) (range height) px x y = px x y.
Proof.
  intros Hout. rewrite fill_at.
  destruct (decide (x ∈ range width)) as [Hx | Hx];
    [|rewrite (bool_decide_eq_false_2 _ Hx); reflexivity].
  destruct (decide (y ∈ range height)) as [Hy | Hy];
    [|rewrite (bool_decide_eq_false_2 _ Hy), andb_false_r; reflexivity].
  exfalso. apply Hout. split; apply elem_of_range; assumption.
Qed.

(** X11. The pixel loop undoes the export: run on the grid of codes of
    an image whose channels lie in 0..255, it prints nothing, raises
    nothing, and at every position inside the image leaves exactly
    the pixel of the image. *)
Theorem populate_restores_image img width height px0 w0 :
  size img = (width, height) ->
  (forall x y, channels_in_range (pixels img x y)) ->
  exists px',
    populate (image_grid img) width height px0 w0 = (w0, inr px')
    /\ forall x y,
         (x < Z.to_nat width)%nat -> (y < Z.to_nat height)%nat ->
         px' x y = pixels img x y.
Proof.
  intros Hsize Hpx.
  assert (Hcell : forall x y,
            (x < Z.to_nat width)%nat -> (y < Z.to_nat height)%nat ->
            cell (image_grid img) x y = Some (rgba_to_hex (pixels img x y))).
  { intros x y Hx Hy. apply cell_image_grid; rewrite Hsize; assumption. }
  eexists. split.
  - apply populate_quiet, warnings_nil. intros x y Hx Hy.
    do 2 eexists. split; [apply Hcell; assumption|].
    apply decode_encode_bytes, Hpx.
  - intros x y Hx Hy. rewrite fill_inside by assumption.
    unfold cell_pixel. rewrite Hcell, decode_encode_bytes by auto.
    reflexivity.
Qed.

Lemma populate_restores_image_witness :
  exists px',
    populate (image_grid (plain_image ModeRGBA 64 32 (18, 52, 171, 255)))
      64 32 (fun _ _ => (0, 0, 0, 0)) (World ∅ [])
    = (World ∅ [], inr px')
    /\ forall x y,
         (x < Z.to_nat 64)%nat -> (y < Z.to_nat 32)%nat ->
         px' x y = pixels (plain_image ModeRGBA 64 32 (18, 52, 171, 255)) x y.
Proof.
  apply populate_restores_image.
  - reflexivity.
  - intros x y. cbn. lia.
Defined.

Lemma upper_hex_is_hex c :
  is_upper_hex c = true -> is_hex c = true /\ upper_hex_char c = c.
Proof.
  ascii_cases c; vm_compute; intros H; try discriminate H;
    split; reflexivity.
Qed.

Lemma upper_code_decodes code :
  well_formed_upper code = true ->
  exists px, hex_to_rgba code = inr px /\ rgba_to_hex px = code.
Proof.
  intros Hwf.
  destruct (well_formed_upper_shape _ Hwf)
    as (c1 & c2 & c3 & c4 & c5 & c6 & c7 & c8 & -> & Hup).
  repeat match goal with H : Forall _ (_ :: _) |- _ => inversion_clear H end.
  repeat match goal with
         | H : is_upper_hex _ = true |- _ => apply upper_hex_is_hex in H as [? ?]
         end.
  destruct (decode_any_case (code_of_chars c1 c2 c3 c4 c5 c6 c7 c8))
    as (px & Hd & _ & He).
  - unfold well_formed_any_case, code_of_chars. cbn [String.length all_chars].
    repeat match goal with H : is_hex _ = true |- _ => rewrite H; clear H end.
    reflexivity.
  - exists px. split; [exact Hd|]. rewrite He.
    unfold code_of_chars. cbn [map_chars].
    repeat match goal with H : upper_hex_char _ = _ |- _ => rewrite H; clear H end.
    reflexivity.
Qed.

Lemma map_seq_lookup {A} (f : nat -> A) (l : list A) : forall s,
  (forall i x, l !! i = Some x -> f (s + i)%nat = x) ->
  map f (seq s (length l)) = l.
Proof.
  induction l as [|a l IH]; intros s H; [reflexivity|].
  cbn [length seq map]. f_equal.
  - rewrite <- (Nat.add_0_r s). apply (H 0%nat). reflexivity.
  - apply IH. intros i x Hi.
    replace (S s + i)%nat with (s + S i)%nat by lia. apply H. exact Hi.
Qed.

(** X12. The export undoes the pixel loop: on a grid of [h] rows of
    [w] well-formed upper-case codes the loop prints nothing and
    raises nothing, and the grid of codes of the image it fills is the
    grid it started from, token for token. *)
Theorem populate_then_image_grid (grid_data : list (list string))
    (w h : nat) px0 w0 :
  length grid_data = h ->
  Forall (fun row => length row = w
                     /\ Forall (fun c => well_formed_upper c = true) row)
    grid_data ->
  exists px',
    populate grid_data (Z.of_nat w) (Z.of_nat h) px0 w0 = (w0, inr px')
    /\ image_grid (Image ModeRGBA (Z.of_nat w, Z.of_nat h) px') = grid_data.
Proof.
  intros Hlen Hgrid.
  assert (Hcell : forall x y code,
            cell grid_data x y = Some code ->
            exists px, hex_to_rgba code = inr px /\ rgba_to_hex px = code).
  { intros x y code. unfold cell.
    destruct (grid_data !! y) as [row|] eqn:Hy; [|discriminate].
    cbn. intros Hx. apply upper_code_decodes.
    rewrite Forall_forall in Hgrid.
    destruct (Hgrid row) as [_ Hrow];
      [apply list_elem_of_lookup; eauto|].
    rewrite Forall_forall in Hrow. apply Hrow.
    apply list_elem_of_lookup. eauto. }
  assert (Hin : forall x y, (x < w)%nat -> (y < h)%nat ->
            exists code, cell grid_data x y = Some code).
  { intros x y Hx Hy. unfold cell.
    destruct (lookup_lt_is_Some_2 grid_data y) as [row Hrow]; [lia|].
    rewrite Hrow. cbn. apply lookup_lt_is_Some_2.
    rewrite Forall_forall in Hgrid.
    destruct (Hgrid row) as [-> _]; [apply list_elem_of_lookup; eauto|].
    exact Hx. }
  eexists. split.
  - apply populate_quiet, warnings_nil. rewrite !Nat2Z.id. intros x y Hx Hy.
    destruct (Hin x y Hx Hy) as [code Hc].
    destruct (Hcell _ _ _ Hc) as (px & Hd & _). eauto.
  - set (px' := fill _ _ _ _).
    unfold image_grid, range. cbn [size pixels fst snd]. rewrite !Nat2Z.id.
    rewrite <- Hlen at 1. apply map_seq_lookup. intros y row Hrow.
    cbn [Nat.add].
    assert (Hy : (y < h)%nat) by (rewrite <- Hlen; eapply lookup_lt_Some, Hrow).
    assert (Hw : length row = w).
    { rewrite Forall_forall in Hgrid.
      destruct (Hgrid row) as [-> _]; [apply list_elem_of_lookup; eauto|].
      reflexivity. }
    rewrite <- Hw at 1. apply map_seq_lookup. intros x code Hcode.
    cbn [Nat.add].
    assert (Hx : (x < w)%nat) by (rewrite <- Hw; eapply lookup_lt_Some, Hcode).
    subst px'. rewrite fill_inside by (rewrite Nat2Z.id; assumption).
    assert (Hc : cell grid_data x y = Some code)
      by (unfold cell; rewrite Hrow; exact Hcode).
    unfold cell_pixel. rewrite Hc.
    destruct (Hcell _ _ _ Hc) as (px & -> & Henc). exact Henc.
Qed.

Lemma populate_then_image_grid_witness :
  exists px',
    populate (plain_grid 64 32 "#12AB00FF") (Z.of_nat 64) (Z.of_nat 32)
      (fun _ _ => (0, 0, 0, 0)) (World ∅ [])
    = (World ∅ [], inr px')
    /\ image_grid (Image ModeRGBA (Z.of_nat 64, Z.of_nat 32) px')
       = plain_grid 64 32 "#12AB00FF".
Proof.
  apply populate_then_image_grid.
  - apply length_replicate.
  - apply Forall_replicate. split.
    + apply length_replicate.
    + apply Forall_replicate. reflexivity.
Defined.

(** X13. The safeguard of the pixel loop: a position inside the image
    for which the grid has no token (a missing row, or a row too
    short) is filled with transparent black and reported as out of
    bounds, the loop goes on, and no position outside the image is
    written. *)
Theorem populate_missing_cell grid_data width height px w :
  exists px' warned,
    populate grid_data width height px w
      = (World (files w) (stdout w ++ warned), inr px')
    /\ (forall x y,
          (x < Z.to_nat width)%nat -> (y < Z.to_nat height)%nat ->
          cell grid_data x y = None ->
          px' x y = (0, 0, 0, 0)
          /\ IndexOutOfBounds (Z.of_nat x) (Z.of_nat y) ∈ warned)
    /\ (forall x y,
          ~ ((x < Z.to_nat width)%nat /\ (y < Z.to_nat height)%nat) ->
          px' x y = px x y).
Proof.
  do 2 eexists. split; [apply populate_run|]. split.
  - intros x y Hx Hy Hcell. rewrite fill_inside by assumption.
    unfold cell_pixel. rewrite Hcell. split; [reflexivity|].
    unfold warnings. apply list_elem_of_In, in_flat_map.
    exists y. split; [apply list_elem_of_In, elem_of_range; assumption|].
    apply in_flat_map. exists x.
    split; [apply list_elem_of_In, elem_of_range; assumption|].
    unfold cell_warning. rewrite Hcell. left. reflexivity.
  - intros x y Hout. apply fill_outside, Hout.
Qed.

Lemma populate_missing_cell_witness :
  exists px' warned,
    populate [["#000000FF"]] 2 1 (fun _ _ => (9, 9, 9, 9)) (World ∅ [])
      = (World ∅ ([] ++ warned), inr px')
    /\ (px' 1%nat 0%nat = (0, 0, 0, 0) /\ IndexOutOfBounds 1 0 ∈ warned)
    /\ px' 5%nat 5%nat = (9, 9, 9, 9).
Proof.
  destruct (populate_missing_cell [["#000000FF"]] 2 1
              (fun _ _ => (9, 9, 9, 9)) (World ∅ []))
    as (px' & warned & Hrun & Hin & Hout).
  exists px', warned. split; [exact Hrun|]. split.
  - apply (Hin 1%nat 0%nat); [cbn; lia | cbn; lia | reflexivity].
  - apply (Hout 5%nat 5%nat). cbn. lia.
Defined.

(** ** The entry point *)

(** X14. Neither conversion lets an exception escape or ends
    silently: in every world, for either mode and any two paths, the
    run returns normally, keeps what was printed before and prints at
    least one more line. *)
Theorem main_reports (m : conversion_mode) (input output : string) (w : world) :
  exists w' new,
    main m input output w = (w', inr tt)
    /\ stdout w' = (stdout w ++ new)%list /\ new <> [].
Proof.
  destruct m; cbn [main].
  - destruct (files w !! input) as [[data | img]|] eqn:Hin.
    + rewrite (png_to_hex_grid_text _ _ _ _ Hin).
      do 2 eexists. split; [reflexivity|]. split; [reflexivity | discriminate].
    + rewrite (png_to_hex_grid_image _ _ _ _ Hin).
      destruct (size img) as [width height].
      destruct (Py.py_in _ _); do 2 eexists;
        (split; [reflexivity|]; split; [reflexivity | discriminate]).
    + rewrite (png_to_hex_grid_missing _ _ _ Hin).
      do 2 eexists. split; [reflexivity|]. split; [reflexivity | discriminate].
  - destruct (hex_grid_to_png_never_succeeds w input output) as (l & -> & _).
    do 2 eexists. split; [reflexivity|]. split; [reflexivity | discriminate].
Qed.

(** X15. A text file that has lines, all of them blank, passes the
    emptiness test and the row loop with an empty grid and the width
    still at its initial value: the import reports the size -1x0 as
    wrong and writes nothing. *)
Theorem import_only_blank_lines w0 inp out data :
  files w0 !! inp = Some (TextFile data) ->
  Py.readlines data <> [] ->
  Forall blank (Py.readlines data) ->
  hex_grid_to_png inp out w0 =
  printed w0 (TextGridError (ValueError (HexWrongDimension (-1) 0))).
Proof.
  intros Hin Hne Hblank.
  rewrite (hex_grid_to_png_text _ _ _ _ Hin).
  destruct (Py.readlines data) as [|l ls] eqn:Hl; [contradiction|].
  unfold enumerate. rewrite <- (app_nil_r (l :: ls)).
  rewrite parse_skip_blank by assumption. reflexivity.
Qed.

Lemma import_only_blank_lines_witness :
  hex_grid_to_png "grid.txt" "skin.png"
    (text_world "grid.txt" ("  " ++ Py.newline ++ Py.newline))
  = printed (text_world "grid.txt" ("  " ++ Py.newline ++ Py.newline))
      (TextGridError (ValueError (HexWrongDimension (-1) 0))).
Proof.
  apply import_only_blank_lines with (data := "  " ++ Py.newline ++ Py.newline).
  - reflexivity.
  - vm_compute. discriminate.
  - vm_compute. repeat constructor.
Defined.
